(** * A generic resource reconciler: JSON documents, identifiers and the
      create / read / update / delete handlers of
      [internal/services/azurerm_generic_resource.go].

    The handlers are embedded as state-passing functions over the framework's
    resource record, the remote service and a log of the requests issued.
    Packages whose sources are not part of the tree ([utils], [parse],
    [azure]) are modelled from the specification and say so. *)

From stdpp Require Import gmap strings list fin_maps pretty.
From Stdlib Require Import ZArith Ascii String.

Local Open Scope string_scope.
Local Open Scope Z_scope.
Local Open Scope list_scope.

#[local] Set Warnings "-register-all".

(* ================================================================== *)
(** ** JSON documents *)
(* ================================================================== *)

(** A decoded JSON document, as Go's [encoding/json] hands it out in an
    [interface{}]: [nil], [bool], [float64], [string], [[]interface{}] and
    [map[string]interface{}].  The Go [nil] interface is both the JSON
    [null] and the "absent" answer of the helpers, so a single constructor
    [JNull] stands for both.  Numbers are opaque to every function below
    (none computes with them), they are carried as integers. *)
Inductive json : Type :=
| JNull
| JBool (b : bool)
| JNumber (n : Z)
| JString (s : string)
| JArray (l : list json)
| JObject (m : gmap string json).

(** The Go test [v == nil] on an [interface{}]. *)
Definition is_nil (j : json) : bool :=
  match j with JNull => true | _ => false end.

(** The Go type assertion [v.(map[string]interface{})] as a test. *)
Definition is_object (j : json) : bool :=
  match j with JObject _ => true | _ => false end.

(** Number of constructors of a document; the measure for induction. *)
Fixpoint json_size (j : json) : nat :=
  match j with
  | JArray l => S (foldr (fun v acc => (json_size v + acc)%nat) 0%nat l)
  | JObject m => S (map_fold (fun _ v acc => (json_size v + acc)%nat) 0%nat m)
  | _ => 1%nat
  end.

(* ================================================================== *)
(** ** Package [utils]: the JSON merge engine *)
(* ================================================================== *)

Module utils.

(** Modelled from the spec: [utils.GetMergedJson] is not part of the source
    tree.  Section 4.2, [Merge(base, overlay)]: "recursive structural merge.
    Rule: if both [base[k]] and [overlay[k]] are objects, merge recursively;
    otherwise [overlay[k]] replaces [base[k]] entirely (arrays are replaced
    wholesale, never concatenated or merged element-wise). nil/absent [base]
    yields [overlay] unchanged (and vice versa)."  Keys of one side only are
    kept (section 8: the result "contains the union of both key sets"). *)
Fixpoint GetMergedJson (base overlay : json) {struct base} : json :=
  match base, overlay with
  | JNull, o => o
  | b, JNull => b
  | JObject bm, JObject om =>
      JObject (merge (fun bv ov =>
        match bv, ov with
        | Some (JObject _ as b), Some (JObject _ as o) => Some (GetMergedJson b o)
        | _, Some o => Some o
        | Some b, None => Some b
        | None, None => None
        end) bm om)
  | _, o => o
  end.

(** Modelled from the spec: [utils.GetUpdatedJson] is not part of the source
    tree.  Section 4.3: "for each key present in desired, if remote also has
    it, take remote's value (recursively, by the same rule for nested
    objects); if remote lacks it, keep desired's value as-is"; "keys present
    only in remote and absent from desired are ignored entirely". *)
Fixpoint GetUpdatedJson (old new : json) {struct old} : json :=
  match old, new with
  | JObject om, JObject nm =>
      JObject (merge (fun ov nv =>
        match ov, nv with
        | Some o, Some n => Some (GetUpdatedJson o n)
        | Some o, None => Some o
        | None, _ => None
        end) om nm)
  | _, n => n
  end.

(** Modelled from the spec: [utils.GetIgnoredJson] is not part of the source
    tree.  Section 4.2, [StripKeys(doc, keys)]: "removes the named top-level
    keys; used only when seeding a body during first-import". *)
Definition GetIgnoredJson (doc : json) (keys : list string) : json :=
  match doc with
  | JObject m => JObject (filter (fun kv => kv.1 ∉ keys) m)
  | other => other
  end.

(* ------------------------------------------------------------------ *)
(** *** Output selector paths *)

(** One step of a selector path: an object key or an array index. *)
Inductive segment : Type :=
| Key (k : string)
| Index (i : nat).

Module path.

(** The pieces of [s] between occurrences of the character [c]. *)
Fixpoint split_on (c : ascii) (s : string) : list string :=
  match s with
  | EmptyString => [EmptyString]
  | String a rest =>
      if Ascii.eqb a c then EmptyString :: split_on c rest
      else match split_on c rest with
           | p :: ps => String a p :: ps
           | [] => [String a EmptyString]
           end
  end.

(** The key in front of the first bracket, and what follows it. *)
Fixpoint take_key (s : string) : string * string :=
  match s with
  | EmptyString => (EmptyString, EmptyString)
  | String a rest =>
      if Ascii.eqb a "[" then (EmptyString, s)
      else let '(k, r) := take_key rest in (String a k, r)
  end.

Definition digit_of (a : ascii) : option nat :=
  let n := nat_of_ascii a in
  if bool_decide (48 ≤ n ≤ 57)%nat then Some (n - 48)%nat else None.

(** A run of bracketed decimal indices [[N][M]...] up to the end of the
    piece.  [cur] is [None] outside brackets, and inside a bracket the
    number read so far ([Some None] when no digit was read yet). *)
Fixpoint parse_indices (s : string) (cur : option (option nat)) : option (list nat) :=
  match s, cur with
  | EmptyString, None => Some []
  | EmptyString, Some _ => None
  | String a rest, None =>
      if Ascii.eqb a "[" then parse_indices rest (Some None) else None
  | String a rest, Some acc =>
      if Ascii.eqb a "]" then
        match acc with
        | Some n => cons n <$> parse_indices rest None
        | None => None
        end
      else
        match digit_of a with
        | Some d => parse_indices rest (Some (Some (10 * default 0 acc + d)%nat))
        | None => None
        end
  end.

(** One dot-separated piece: a key, bracketed indices, or both. *)
Definition parse_piece (p : string) : option (list segment) :=
  let '(k, r) := take_key p in
  match parse_indices r None with
  | None => None
  | Some idx =>
      match k, idx with
      | EmptyString, [] => None
      | EmptyString, _ => Some (Index <$> idx)
      | _, _ => Some (Key k :: (Index <$> idx))
      end
  end.

Definition parse (p : string) : option (list segment) :=
  match mapM (M := option) parse_piece (split_on "." p) with
  | Some segs => Some (List.concat segs)
  | None => None
  end.

End path.

(** Following one segment; a missing key, an index out of range and a
    segment of the wrong kind for the value at hand all give [nil]. *)
Definition step (j : json) (seg : segment) : json :=
  match seg, j with
  | Key k, JObject m => default JNull (m !! k)
  | Index i, JArray l => default JNull (l !! i)
  | _, _ => JNull
  end.

Definition walk (doc : json) (segs : list segment) : json :=
  foldl step doc segs.

(** Modelled from the spec: [utils.ExtractObject] is not part of the source
    tree.  Section 4.2, [ExtractPath(doc, path)]: "resolves a path composed
    of [.]-separated keys (with bracketed numeric indices for array
    elements) against [doc]; returns absent (not an error) if any segment is
    missing or type-mismatched (e.g. indexing into a non-array)"; section 6:
    "invalid/missing paths silently contribute nothing".  The only result is
    a document ([part == nil] is the caller's test for absent). *)
Definition ExtractObject (doc : json) (p : string) : json :=
  match path.parse p with
  | Some segs => walk doc segs
  | None => JNull
  end.

End utils.

(* ================================================================== *)
(** ** Package [parse]: resource identifiers *)
(* ================================================================== *)

(** The result of a fallible Go function: a value or an error. *)
Inductive result (E A : Type) : Type :=
| Ok (a : A)
| Err (e : E).
Arguments Ok {E A} a.
Arguments Err {E A} e.

Module parse.

Record ResourceId : Type := mkResourceId { Url : string; ApiVersion : string }.

(** Modelled from the spec: [parse.NewResourceID] is not part of the source
    tree.  Section 4.1: "constructs directly from raw inputs". *)
Definition NewResourceID (url apiVersion : string) : ResourceId :=
  {| Url := url; ApiVersion := apiVersion |}.

(** The sixteen hexadecimal digits, in upper case, and their values. *)
Definition hex_digit (n : nat) : ascii :=
  if (n <? 10)%nat then ascii_of_nat (48 + n) else ascii_of_nat (55 + n).

Definition hex_value (c : ascii) : option nat :=
  let n := nat_of_ascii c in
  if bool_decide (48 ≤ n ≤ 57)%nat then Some (n - 48)%nat
  else if bool_decide (65 ≤ n ≤ 70)%nat then Some (n - 55)%nat
  else None.

(** A character that can serve as separator: not the percent sign and not
    a hexadecimal digit, the characters an escape is written with. *)
Definition reserved (sep : ascii) : bool :=
  negb (Ascii.eqb sep "%") && negb (bool_decide (is_Some (hex_value sep))).

Section Encoding.
(** Section 4.1 leaves the separator to the implementation; it is a
    parameter. *)
Variable sep : ascii.

(** The characters that are written as an escape inside a field. *)
Definition escaped (c : ascii) : bool :=
  Ascii.eqb c sep || Ascii.eqb c "%".

(** A field with the separator and the percent sign percent-encoded. *)
Fixpoint escape (s : string) : string :=
  match s with
  | EmptyString => EmptyString
  | String c rest =>
      if escaped c then
        String "%"
          (String (hex_digit (nat_of_ascii c / 16))
             (String (hex_digit (nat_of_ascii c mod 16)) (escape rest)))
      else String c (escape rest)
  end.

(** The field an escaped text stands for; a percent sign that is not
    followed by two hexadecimal digits stands for nothing. *)
Fixpoint unescape (s : string) : option string :=
  match s with
  | EmptyString => Some EmptyString
  | String c rest =>
      if Ascii.eqb c "%" then
        match rest with
        | String h (String l rest') =>
            match hex_value h, hex_value l, unescape rest' with
            | Some a, Some b, Some tail =>
                Some (String (ascii_of_nat (16 * a + b)) tail)
            | _, _, _ => None
            end
        | _ => None
        end
      else
        match unescape rest with
        | Some tail => Some (String c tail)
        | None => None
        end
  end.

(** Modelled from the spec: the method [ResourceId.ID] is not part of the
    source tree.  Section 4.1, [Encode]: "produces one printable string
    containing both fields losslessly and unambiguously (the two fields must
    never be confusable even if [url] itself contains the chosen separator
    ... reserve a separator guaranteed absent from a URL path, or use a
    length-prefixed / percent-encoded scheme)".  This is the percent-encoded
    scheme: the two fields, escaped, with the separator between them. *)
Definition ID (id : ResourceId) : string :=
  escape (Url id) +:+ String sep (escape (ApiVersion id)).

(** The text before and after the first occurrence of [sep]. *)
Fixpoint split_first (s : string) : option (string * string) :=
  match s with
  | EmptyString => None
  | String a rest =>
      if Ascii.eqb a sep then Some (EmptyString, rest)
      else match split_first rest with
           | Some (l, r) => Some (String a l, r)
           | None => None
           end
  end.

(** Modelled from the spec: [parse.ResourceID] is not part of the source
    tree.  Section 4.1, [Decode]: "fails with MalformedIdentifier if the
    separator is missing or either field is empty after split"; a field
    with a broken escape is malformed as well. *)
Definition ResourceID (input : string) : result string ResourceId :=
  match split_first input with
  | None => Err "MalformedIdentifier"
  | Some (l, r) =>
      match unescape l, unescape r with
      | Some EmptyString, _ => Err "MalformedIdentifier"
      | _, Some EmptyString => Err "MalformedIdentifier"
      | Some url, Some apiVersion => Ok (NewResourceID url apiVersion)
      | _, _ => Err "MalformedIdentifier"
      end
  end.
End Encoding.

End parse.

(* ================================================================== *)
(** ** Package [azure]: structured add-ons as JSON fragments *)
(* ================================================================== *)

Module azure.

(** One [identity] block of the configuration. *)
Record IdentityBlock : Type :=
  mkIdentityBlock { identity_type : string; identity_ids : list string }.

(** Modelled from the spec: [azure.ExpandTags] is not part of the source
    tree.  Section 4.4, [TagsFragment(tags)]: the object with the single member
    [tags], "or absent if [tags] is empty/unset". *)
Definition ExpandTags (tags : gmap string string) : json :=
  if decide (tags = ∅) then JNull
  else JObject {[ "tags" := JObject (JString <$> tags) ]}.

(** Modelled from the spec: [azure.ExpandLocation] is not part of the source
    tree.  Section 4.4, [LocationFragment(loc)]: the object with the single
    member [location], "or absent". *)
Definition ExpandLocation (location : string) : json :=
  match location with
  | EmptyString => JNull
  | _ => JObject {[ "location" := JString location ]}
  end.

End azure.

(* ================================================================== *)
(** ** Package [services]: the generic resource *)
(* ================================================================== *)

Module services.
Import parse.

(** The attributes of [schema.ResourceData] the handlers read and write,
    after the schema of [ResourceAzureGenericResource]; an attribute that is
    not set reads as the zero value of its type. *)
Record ResourceData : Type := mkResourceData {
  Id : string;
  IsNewResource : bool;
  url : string;
  api_version : string;
  location : string;
  identity : list azure.IdentityBlock;
  body : string;
  create_method : string;
  update_method : string;
  paths : list string;
  output : string;
  tags : gmap string string
}.

(** [d.SetId(v)] and [d.Set(key, v)]. *)
Definition SetId (v : string) (d : ResourceData) : ResourceData :=
  mkResourceData v (IsNewResource d) (url d) (api_version d) (location d)
    (identity d) (body d) (create_method d) (update_method d) (paths d)
    (output d) (tags d).
Definition Set_url (v : string) (d : ResourceData) : ResourceData :=
  mkResourceData (Id d) (IsNewResource d) v (api_version d) (location d)
    (identity d) (body d) (create_method d) (update_method d) (paths d)
    (output d) (tags d).
Definition Set_api_version (v : string) (d : ResourceData) : ResourceData :=
  mkResourceData (Id d) (IsNewResource d) (url d) v (location d)
    (identity d) (body d) (create_method d) (update_method d) (paths d)
    (output d) (tags d).
Definition Set_location (v : string) (d : ResourceData) : ResourceData :=
  mkResourceData (Id d) (IsNewResource d) (url d) (api_version d) v
    (identity d) (body d) (create_method d) (update_method d) (paths d)
    (output d) (tags d).
Definition Set_identity (v : list azure.IdentityBlock) (d : ResourceData) : ResourceData :=
  mkResourceData (Id d) (IsNewResource d) (url d) (api_version d) (location d)
    v (body d) (create_method d) (update_method d) (paths d)
    (output d) (tags d).
Definition Set_body (v : string) (d : ResourceData) : ResourceData :=
  mkResourceData (Id d) (IsNewResource d) (url d) (api_version d) (location d)
    (identity d) v (create_method d) (update_method d) (paths d)
    (output d) (tags d).
Definition Set_output (v : string) (d : ResourceData) : ResourceData :=
  mkResourceData (Id d) (IsNewResource d) (url d) (api_version d) (location d)
    (identity d) (body d) (create_method d) (update_method d) (paths d)
    v (tags d).
Definition Set_paths (v : list string) (d : ResourceData) : ResourceData :=
  mkResourceData (Id d) (IsNewResource d) (url d) (api_version d) (location d)
    (identity d) (body d) (create_method d) (update_method d) v
    (output d) (tags d).
Definition Set_tags (v : gmap string string) (d : ResourceData) : ResourceData :=
  mkResourceData (Id d) (IsNewResource d) (url d) (api_version d) (location d)
    (identity d) (body d) (create_method d) (update_method d) (paths d)
    (output d) v.

(** [d.GetOk(key)]: the attribute is set to something other than the zero
    value of its type. *)
Definition GetOk_tags (d : ResourceData) : bool := bool_decide (tags d ≠ ∅).
Definition GetOk_location (d : ResourceData) : bool :=
  bool_decide (location d ≠ EmptyString).
Definition GetOk_identity (d : ResourceData) : bool :=
  bool_decide (identity d ≠ []).

(** What a call of the remote client returns: [(body, response, err)], the
    response being read for its status code only (section 6 of the
    specification: every reply comes with its status). *)
Record Reply : Type := mkReply {
  reply_body : json;
  StatusCode : Z;
  reply_err : option string
}.

Definition StatusNotFound : Z := 404.

(** A request issued to the remote client. *)
Inductive Call : Type :=
| CallGet (url apiVersion : string)
| CallCreateUpdate (url apiVersion : string) (body : json) (method : string)
| CallDelete (url apiVersion : string).

(** The operation named in the message of a wrapped remote error. *)
Inductive operation : Type :=
| CheckingPresence
| CreatingUpdating
| Reading
| Deleting.

(** The errors the handlers return.  [RemoteError op id cause] is
    [fmt.Errorf("<op> %q: %+v", id, err)]; the others are returned as the
    callee produced them. *)
Inductive error : Type :=
| RemoteError (op : operation) (id : ResourceId) (cause : string)
| ImportAsExistsError (resourceName : string) (id : string)
| MalformedIdentifier (cause : string)
| UnmarshalError (cause : string)
| MarshalError (cause : string)
| ExpandIdentityError (cause : string).

(** What the handlers take from outside this file: the remote client
    ([clients.ResourceClient], a state machine over the remote service),
    Go's [encoding/json], and helpers of this repository whose sources are
    not in the tree and about which the specification says too little to
    model them. *)
Record Env (Remote : Type) : Type := mkEnv {
  client_Get : Remote → string → string → Reply * Remote;
  client_CreateUpdate : Remote → string → string → json → string → Reply * Remote;
  client_Delete : Remote → string → string → Reply * Remote;
  json_Unmarshal : string → result string json;
  json_Marshal : json → result string string;
  utils_GetId : json → string;
  azure_ExpandIdentity : list azure.IdentityBlock → result string json;
  azure_FlattenTags : json → gmap string string;
  azure_FlattenLocation : json → string;
  azure_FlattenIdentity : json → list azure.IdentityBlock;
  getUnsupportedProperties : list string;
  separator : ascii
}.
Arguments client_Get {Remote} _ _ _ _.
Arguments client_CreateUpdate {Remote} _ _ _ _ _ _.
Arguments client_Delete {Remote} _ _ _ _.
Arguments json_Unmarshal {Remote} _ _.
Arguments json_Marshal {Remote} _ _.
Arguments utils_GetId {Remote} _ _.
Arguments azure_ExpandIdentity {Remote} _ _.
Arguments azure_FlattenTags {Remote} _ _.
Arguments azure_FlattenLocation {Remote} _ _.
Arguments azure_FlattenIdentity {Remote} _ _.
Arguments getUnsupportedProperties {Remote} _.
Arguments separator {Remote} _.

(** The state a handler runs in: the resource record [d], the remote
    service, and the requests issued so far with their replies (oldest
    first). *)
Record World (Remote : Type) : Type := mkWorld {
  w_data : ResourceData;
  w_remote : Remote;
  w_log : list (Call * Reply)
}.
Arguments mkWorld {Remote} _ _ _.
Arguments w_data {Remote} _.
Arguments w_remote {Remote} _.
Arguments w_log {Remote} _.

(** A handler: it changes the world and returns a value or an error.  What
    was written before an error is returned stays written. *)
Definition M (Remote A : Type) : Type :=
  World Remote → result error A * World Remote.

Section Handlers.
Context {Remote : Type} (env : Env Remote).

Definition ret {A} (a : A) : M Remote A := fun w => (Ok a, w).
Definition fail {A} (e : error) : M Remote A := fun w => (Err e, w).
Definition bind {A B} (m : M Remote A) (k : A → M Remote B) : M Remote B :=
  fun w => match m w with
           | (Ok a, w') => k a w'
           | (Err e, w') => (Err e, w')
           end.
Definition getData : M Remote ResourceData := fun w => (Ok (w_data w), w).
Definition modify (f : ResourceData → ResourceData) : M Remote unit :=
  fun w => (Ok tt, mkWorld (f (w_data w)) (w_remote w) (w_log w)).

(** A call of the remote client: the service moves on, and the request is
    logged with its reply. *)
Definition request (c : Call) : M Remote Reply :=
  fun w =>
    let '(r, rem) :=
      match c with
      | CallGet u a => client_Get env (w_remote w) u a
      | CallCreateUpdate u a b m => client_CreateUpdate env (w_remote w) u a b m
      | CallDelete u a => client_Delete env (w_remote w) u a
      end in
    (Ok r, mkWorld (w_data w) rem (w_log w ++ [(c, r)])).
End Handlers.

Notation "'let*' x ':=' m 'in' k" := (bind m (fun x => k))
  (at level 10, x name, m at level 100, k at level 200).

Section Resource.
Context {Remote : Type} (env : Env Remote).

(** The loop of lines 223-229: each path that resolves is merged into the
    output, in list order. *)
Definition collect (responseBody : json) (output : json) (path : string) : json :=
  let part := utils.ExtractObject responseBody path in
  if is_nil part then output else utils.GetMergedJson output part.

(** Lines 175 to 237.  The errors of [d.Set] are dropped in the source, so
    the writes are plain updates; the [log.Printf] calls of the file leave
    the state alone. *)
Definition resourceAzureGenericResourceRead : M Remote unit :=
  let* d := getData in
  match ResourceID (separator env) (Id d) with
  | Err err => fail (MalformedIdentifier err)
  | Ok id =>
      let* r := request env (CallGet (Url id) (ApiVersion id)) in
      let responseBody := reply_body r in
      match reply_err r with
      | Some err =>
          if bool_decide (StatusCode r = StatusNotFound) then
            modify (SetId EmptyString)
          else fail (RemoteError Reading id err)
      | None =>
          let* _ := modify (Set_url (Url id)) in
          let* _ := modify (Set_api_version (ApiVersion id)) in
          let bodyJson := body d in
          let* requestBody :=
            match json_Unmarshal env bodyJson with
            | Ok v => ret v
            | Err err =>
                if bool_decide (String.length bodyJson = 0%nat) then
                  ret (utils.GetIgnoredJson responseBody (getUnsupportedProperties env))
                else fail (UnmarshalError err)
            end in
          match json_Marshal env (utils.GetUpdatedJson requestBody responseBody) with
          | Err err => fail (MarshalError err)
          | Ok data =>
              let* _ := modify (Set_body data) in
              let* _ := modify (Set_tags (azure_FlattenTags env responseBody)) in
              let* _ := modify (Set_location (azure_FlattenLocation env responseBody)) in
              let* _ := modify (Set_identity (azure_FlattenIdentity env responseBody)) in
              let paths := paths d in
              let output :=
                if bool_decide (List.length paths ≠ 0%nat)
                then foldl (collect responseBody) (JObject ∅) paths
                else JNull in
              let output := if is_nil output then JObject ∅ else output in
              let outputJson :=
                match json_Marshal env output with
                | Ok s => s
                | Err _ => EmptyString
                end in
              modify (Set_output outputJson)
          end
      end
  end.

(** Lines 114 to 173; lines 163 and 164 only log the request body. *)
Definition resourceAzureGenericResourceCreateUpdate : M Remote unit :=
  let* d := getData in
  let id := NewResourceID (url d) (api_version d) in
  let* _ :=
    if IsNewResource d then
      let* r := request env (CallGet (Url id) (ApiVersion id)) in
      let existing := reply_body r in
      let* _ :=
        match reply_err r with
        | Some err =>
            if bool_decide (StatusCode r ≠ StatusNotFound)
            then fail (RemoteError CheckingPresence id err)
            else ret tt
        | None => ret tt
        end in
      if bool_decide (0 < String.length (utils_GetId env existing))%nat
      then fail (ImportAsExistsError "azurermg_resource" (ID (separator env) id))
      else ret tt
    else ret tt in
  match json_Unmarshal env (body d) with
  | Err err => fail (UnmarshalError err)
  | Ok requestBody =>
      let requestBody :=
        if GetOk_tags d
        then utils.GetMergedJson requestBody (azure.ExpandTags (tags d))
        else requestBody in
      let requestBody :=
        if GetOk_location d
        then utils.GetMergedJson requestBody (azure.ExpandLocation (location d))
        else requestBody in
      let* requestBody :=
        if GetOk_identity d then
          match azure_ExpandIdentity env (identity d) with
          | Err err => fail (ExpandIdentityError err)
          | Ok bodyWithIdentity => ret (utils.GetMergedJson requestBody bodyWithIdentity)
          end
        else ret requestBody in
      let method := if IsNewResource d then create_method d else update_method d in
      let* r := request env (CallCreateUpdate (Url id) (ApiVersion id) requestBody method) in
      match reply_err r with
      | Some err => fail (RemoteError CreatingUpdating id err)
      | None =>
          let* _ := modify (SetId (ID (separator env) id)) in
          resourceAzureGenericResourceRead
      end
  end.

(** Lines 239 to 255. *)
Definition resourceAzureGenericResourceDelete : M Remote unit :=
  let* d := getData in
  match ResourceID (separator env) (Id d) with
  | Err err => fail (MalformedIdentifier err)
  | Ok id =>
      let* r := request env (CallDelete (Url id) (ApiVersion id)) in
      match reply_err r with
      | Some err => fail (RemoteError Deleting id err)
      | None => ret tt
      end
  end.
End Resource.

End services.

(* ================================================================== *)
(** ** A small in-memory environment to run the handlers in *)
(* ================================================================== *)

Module fixture.
Import services.

Definition quote : string := String (ascii_of_nat 34) EmptyString.

(** JSON text of a document (keys in the order the map enumerates them, no
    escapes in strings). *)
Fixpoint marshal (j : json) : string :=
  match j with
  | JNull => "null"
  | JBool true => "true"
  | JBool false => "false"
  | JNumber n => pretty n
  | JString s => quote +:+ s +:+ quote
  | JArray l =>
      "[" +:+ foldr (fun v acc =>
                match acc with
                | EmptyString => marshal v
                | _ => marshal v +:+ "," +:+ acc
                end) EmptyString l +:+ "]"
  | JObject m =>
      "{" +:+ map_fold (fun k v acc =>
                let kv := quote +:+ k +:+ quote +:+ ":" +:+ marshal v in
                match acc with
                | EmptyString => kv
                | _ => kv +:+ "," +:+ acc
                end) EmptyString m +:+ "}"
  end.

(** A decoder that knows the documents of [known] by their text. *)
Definition unmarshal (known : list json) (s : string) : result string json :=
  match List.find (fun j => String.eqb (marshal j) s) known with
  | Some j => Ok j
  | None => Err "invalid character"
  end.

(** The [id] member of a document, when it is a string. *)
Definition GetId (resource : json) : string :=
  match resource with
  | JObject m =>
      match m !! "id" with
      | Some (JString s) => s
      | _ => EmptyString
      end
  | _ => EmptyString
  end.

Definition ExpandIdentity (blocks : list azure.IdentityBlock) : result string json :=
  match blocks with
  | b :: _ =>
      if bool_decide (azure.identity_type b ∈ ["SystemAssigned"; "UserAssigned"; "None"])
      then Ok (JObject {[ "identity" :=
                 JObject {[ "type" := JString (azure.identity_type b) ]} ]})
      else Err "InvalidIdentityType"
  | [] => Ok JNull
  end.

Definition FlattenTags (doc : json) : gmap string string :=
  match doc with
  | JObject m =>
      match m !! "tags" with
      | Some (JObject t) =>
          omap (fun v => match v with JString s => Some s | _ => None end) t
      | _ => ∅
      end
  | _ => ∅
  end.

Definition FlattenLocation (doc : json) : string :=
  match doc with
  | JObject m =>
      match m !! "location" with
      | Some (JString s) => s
      | _ => EmptyString
      end
  | _ => EmptyString
  end.

Definition FlattenIdentity (doc : json) : list azure.IdentityBlock :=
  match doc with
  | JObject m =>
      match m !! "identity" with
      | Some (JObject i) =>
          match i !! "type" with
          | Some (JString t) => [azure.mkIdentityBlock t []]
          | _ => []
          end
      | _ => []
      end
  | _ => []
  end.

(** The remote service: the documents it holds, by url. *)
Definition store : Type := gmap string json.

Definition notFound : Reply := mkReply JNull 404 (Some "ResourceNotFound").

Definition Get (s : store) (u a : string) : Reply * store :=
  match s !! u with
  | Some doc => (mkReply doc 200 None, s)
  | None => (notFound, s)
  end.

(** The service takes objects only, and answers with what it stored. *)
Definition CreateUpdate (s : store) (u a : string) (b : json) (m : string) : Reply * store :=
  if is_object b then (mkReply b 200 None, <[u := b]> s)
  else (mkReply JNull 400 (Some "BadRequest"), s).

Definition Delete (s : store) (u a : string) : Reply * store :=
  match s !! u with
  | Some _ => (mkReply JNull 200 None, delete u s)
  | None => (notFound, s)
  end.

Definition env (known : list json) : Env store :=
  mkEnv store Get CreateUpdate Delete (unmarshal known) (fun j => Ok (marshal j))
    GetId ExpandIdentity FlattenTags FlattenLocation FlattenIdentity
    ["id"; "name"] "?".

(** Sample documents: the ones of section 8 of the specification. *)
Definition obj (l : list (string * json)) : json := JObject (list_to_map l).

Definition desired1 : json :=
  obj [("a", JNumber 1); ("b", obj [("c", JNumber 2)])].
Definition remote1 : json :=
  obj [("a", JNumber 9); ("b", obj [("c", JNumber 2); ("d", JNumber 5)]);
       ("e", JNumber 7)].
Definition stored1 : json :=
  obj [("a", JNumber 9); ("b", obj [("c", JNumber 2)])].

Definition remote2 : json :=
  obj [("id", JString "X"); ("name", JString "Y");
       ("properties", obj [("foo", JNumber 1)])].
Definition stored2 : json :=
  obj [("properties", obj [("foo", JNumber 1)])].

Definition remote3 : json :=
  obj [("properties",
        obj [("foo", obj [("x", JNumber 1)]); ("list", JArray [JNumber 4])])].
Definition output3 : json := obj [("x", JNumber 1)].

Definition sampleUrl : string := "/subscriptions/0000/resourceGroups/rg%20one".
Definition sampleApi : string := "2021-04-01".

(** A resource record with the url, the api version and the default
    methods, and nothing else set. *)
Definition blank (isNew : bool) (bodyText : string) : ResourceData :=
  mkResourceData EmptyString isNew sampleUrl sampleApi EmptyString []
    bodyText "PUT" "PUT" [] EmptyString ∅.

Definition world (d : ResourceData) (s : store) : World store := mkWorld d s [].

Definition sampleId : parse.ResourceId := parse.NewResourceID sampleUrl sampleApi.

(** A resource that was created before: its identifier is in the state. *)
Definition managed (bodyText : string) : ResourceData :=
  SetId (parse.ID "?" sampleId) (blank false bodyText).

(** The same environment with a remote service that is down. *)
Definition unavailable : Reply := mkReply JNull 503 (Some "ServiceUnavailable").
Definition envDown (known : list json) : Env store :=
  mkEnv store (fun s _ _ => (unavailable, s)) CreateUpdate Delete
    (unmarshal known) (fun j => Ok (marshal j))
    GetId ExpandIdentity FlattenTags FlattenLocation FlattenIdentity
    ["id"; "name"] "?".

(** A managed resource with tags and a location set, and no identity. *)
Definition tagged : World store :=
  world (Set_location "westeurope"
           (Set_tags {[ "env" := "prod" ]} (blank false (marshal desired1))))
        ∅.

End fixture.

(* ================================================================== *)
(** ** The specification's words, for comparison with the handlers *)
(* ================================================================== *)

Module spec.
Import services.

(** Section 3, OutputSelector: "each path resolves to zero-or-one
    sub-document within RemoteDocument; results are merged in list order
    (later paths' fields win on key collision) into a single
    OutputDocument". *)
Definition resolved (remoteDocument : json) (selector : list string) : list json :=
  filter (fun part => is_nil part = false)
         (utils.ExtractObject remoteDocument <$> selector).

Definition OutputDocument (remoteDocument : json) (selector : list string) : json :=
  foldl utils.GetMergedJson (JObject ∅) (resolved remoteDocument selector).

(** Section 4.5: "start from DesiredDocument, merge TagsFragment, then
    LocationFragment, then IdentityFragment, in that fixed order"; section
    3: "presence governs whether its JSON fragment is merged".  A fragment
    that is not present is [None]. *)
Definition ComposedBody (desiredDocument : json)
    (tagsFragment locationFragment identityFragment : option json) : json :=
  foldl utils.GetMergedJson desiredDocument
        (omap id [tagsFragment; locationFragment; identityFragment]).

End spec.

(* ================================================================== *)
(** ** What a successful read leaves behind *)
(* ================================================================== *)

Section ReadState.
Import services.
Context {Remote : Type} (env : Env Remote).

(** The document [GetUpdatedJson] is given as the old one on read (lines
    199 to 209): the decoded body, or on import the remote document
    without the unsupported properties. *)
Definition read_desired (bodyJson : string) (responseBody : json) : result string json :=
  match json_Unmarshal env bodyJson with
  | Ok v => Ok v
  | Err err =>
      if bool_decide (String.length bodyJson = 0%nat)
      then Ok (utils.GetIgnoredJson responseBody (getUnsupportedProperties env))
      else Err err
  end.

(** The text stored in [output] (lines 219 to 235). *)
Definition read_output (responseBody : json) (paths : list string) : string :=
  let output :=
    if bool_decide (List.length paths ≠ 0%nat)
    then foldl (collect responseBody) (JObject ∅) paths
    else JNull in
  let output := if is_nil output then JObject ∅ else output in
  match json_Marshal env output with
  | Ok s => s
  | Err _ => EmptyString
  end.

(** The resource record after the writes of lines 196 to 235. *)
Definition read_state (id : parse.ResourceId) (responseBody : json)
    (text : string) (d : ResourceData) : ResourceData :=
  Set_output (read_output responseBody (paths d))
    (Set_identity (azure_FlattenIdentity env responseBody)
      (Set_location (azure_FlattenLocation env responseBody)
        (Set_tags (azure_FlattenTags env responseBody)
          (Set_body text
            (Set_api_version (parse.ApiVersion id)
              (Set_url (parse.Url id) d)))))).
End ReadState.

(* ================================================================== *)
(** ** What a create or update sends *)
(* ================================================================== *)

Section CreateState.
Import services.
Context {Remote : Type} (env : Env Remote).

(** The fragments of lines 139 to 153; [None] when [d.GetOk] reports the
    attribute as not set. *)
Definition tags_fragment (d : ResourceData) : option json :=
  if GetOk_tags d then Some (azure.ExpandTags (tags d)) else None.
Definition location_fragment (d : ResourceData) : option json :=
  if GetOk_location d then Some (azure.ExpandLocation (location d)) else None.
Definition identity_fragment (d : ResourceData) : result string (option json) :=
  if GetOk_identity d then
    match azure_ExpandIdentity env (identity d) with
    | Ok bodyWithIdentity => Ok (Some bodyWithIdentity)
    | Err err => Err err
    end
  else Ok None.

(** The method of lines 155 to 161. *)
Definition method_of (d : ResourceData) : string :=
  if IsNewResource d then create_method d else update_method d.

(** The requests a handler issues when run in [w], oldest first. *)
Definition issued (handler : M Remote unit) (w : World Remote) : list (Call * Reply) :=
  drop (List.length (w_log w)) (w_log (handler w).2).

(** The existence check of lines 121 to 131 lets the handler go on: the
    resource is not new, or the [Get] did not fail (a 404 apart) and the
    document it returned carries no id. *)
Definition guard_passes (w : World Remote) : Prop :=
  IsNewResource (w_data w) = true →
  let rep := (client_Get env (w_remote w) (url (w_data w)) (api_version (w_data w))).1 in
  (reply_err rep = None ∨ StatusCode rep = StatusNotFound)
  ∧ String.length (utils_GetId env (reply_body rep)) = 0%nat.

(** The world after the existence check. *)
Definition after_guard (w : World Remote) : World Remote :=
  if IsNewResource (w_data w) then
    let '(rep, rem') :=
      client_Get env (w_remote w) (url (w_data w)) (api_version (w_data w)) in
    mkWorld (w_data w) rem'
      (w_log w ++ [(CallGet (url (w_data w)) (api_version (w_data w)), rep)])
  else w.

(** The errors of a create or update that are returned before the remote
    [CreateUpdate] call has succeeded. *)
Definition before_commit (e : error) : Prop :=
  match e with
  | RemoteError CheckingPresence _ _ => True
  | ImportAsExistsError _ _ => True
  | UnmarshalError _ => True
  | ExpandIdentityError _ => True
  | RemoteError CreatingUpdating _ _ => True
  | _ => False
  end.
End CreateState.

(* ================================================================== *)
(** ** Go's package [strings], on ASCII text *)
(* ================================================================== *)

Module strings.

(** What is left of [s] behind the prefix [p], when [s] starts with it. *)
Fixpoint strip_prefix (p s : string) : option string :=
  match p, s with
  | EmptyString, _ => Some s
  | String a p', String b s' =>
      if Ascii.eqb a b then strip_prefix p' s' else None
  | String _ _, EmptyString => None
  end.

(** [strings.TrimPrefix(s, prefix)]: [s] without the leading [prefix], or
    [s] itself when it does not start with it. *)
Definition TrimPrefix (s prefix : string) : string :=
  match strip_prefix prefix s with
  | Some rest => rest
  | None => s
  end.

(** What is left of [s] in front of the suffix [suf], when [s] ends with
    it. *)
Fixpoint strip_suffix (suf s : string) {struct s} : option string :=
  if String.eqb s suf then Some EmptyString
  else match s with
       | EmptyString => None
       | String a rest =>
           match strip_suffix suf rest with
           | Some front => Some (String a front)
           | None => None
           end
       end.

(** [strings.TrimSuffix(s, suffix)]. *)
Definition TrimSuffix (s suffix : string) : string :=
  match strip_suffix suffix s with
  | Some front => front
  | None => s
  end.

(** The bytes of ASCII text are below 128.  [ToLower] and [EqualFold] below
    are Go's on such text; on other text Go maps the letters of other
    alphabets too. *)
Fixpoint isASCII (s : string) : bool :=
  match s with
  | EmptyString => true
  | String a rest => bool_decide (nat_of_ascii a < 128)%nat && isASCII rest
  end.

Definition lower (c : ascii) : ascii :=
  let n := nat_of_ascii c in
  if bool_decide (65 ≤ n ≤ 90)%nat then ascii_of_nat (n + 32) else c.

(** [strings.ToLower(s)] for ASCII [s] ([isASCII s = true]): the letters A
    to Z become a to z.  Go lowers the letters of every alphabet; statements
    that depend on this function take their text to be ASCII. *)
Fixpoint ToLower (s : string) : string :=
  match s with
  | EmptyString => EmptyString
  | String a rest => String (lower a) (ToLower rest)
  end.

(** [strings.EqualFold(s, t)] for ASCII [s] and [t]: equality up to the
    case of the letters A to Z.  Go folds by Unicode simple case folding,
    under which some other characters fold with ASCII letters; statements
    that depend on this function take both texts to be ASCII. *)
Definition EqualFold (s t : string) : bool :=
  String.eqb (ToLower s) (ToLower t).

End strings.

(* ================================================================== *)
(** ** Package [cloud] of the SDK: what a configuration holds *)
(* ================================================================== *)

Module cloud.

Definition ServiceName : Type := string.

(** The key of the resource manager service. *)
Definition ResourceManager : ServiceName := "resourceManager".

Record ServiceConfiguration : Type := mkServiceConfiguration {
  Audience : string;
  Endpoint : string
}.

Record Configuration : Type := mkConfiguration {
  ActiveDirectoryAuthorityHost : string;
  Services : gmap string ServiceConfiguration
}.

End cloud.

(* ================================================================== *)
(** ** Package [provider]: the environment of a custom metadata host *)
(* ================================================================== *)

Module provider.

Record Authentication : Type := mkAuthentication {
  LoginEndpoint : string;
  Audiences : list string;
  Tenant : string;
  IdentityProvider : string
}.

Record Suffixes : Type := mkSuffixes {
  AzureDataLakeStoreFileSystem : string;
  AcrLoginServer : string;
  SqlServerHostname : string;
  AzureDataLakeAnalyticsCatalogAndJob : string;
  KeyVaultDns : string;
  Storage : string;
  AzureFrontDoorEndpointSuffix : string
}.

(** The struct [Environment]; its members [Authentication] and [Suffixes]
    carry an underscore here, the names being those of their types. *)
Record Environment : Type := mkEnvironment {
  Portal : string;
  Authentication_ : Authentication;
  Media : string;
  GraphAudience : string;
  Graph : string;
  Name : string;
  Suffixes_ : Suffixes;
  Batch : string;
  ResourceManager : string;
  VmImageAliasDoc : string;
  ActiveDirectoryDataLake : string;
  SqlManagement : string;
  Gallery : string
}.

(** [env.ResourceManager = v]. *)
Definition Set_ResourceManager (v : string) (env : Environment) : Environment :=
  mkEnvironment (Portal env) (Authentication_ env) (Media env)
    (GraphAudience env) (Graph env) (Name env) (Suffixes_ env) (Batch env)
    v (VmImageAliasDoc env) (ActiveDirectoryDataLake env) (SqlManagement env)
    (Gallery env).

(** Lines 53 to 63. *)
Definition buildAzureCloudConfiguration (env : Environment) : cloud.Configuration :=
  cloud.mkConfiguration
    (LoginEndpoint (Authentication_ env))
    {[ cloud.ResourceManager :=
         cloud.mkServiceConfiguration (ResourceManager env) (ResourceManager env) ]}.

(** Lines 65 to 76. *)
Definition normalizeEnvironmentName (input : string) : string :=
  let output := strings.ToLower input in
  let output := strings.TrimPrefix output "azure" in
  let output := strings.TrimSuffix output "cloud" in
  match output with
  | EmptyString => "public"
  | _ => output
  end.

(** The errors of [FromEndpoint]: one returned as the callee produced it,
    the wrapped error of the request to the metadata service, and the
    environment that was not found. *)
Inductive error : Type :=
| Returned (cause : string)
| RetrievingEnvironments (cause : string)
| UnableToLocate (environmentName endpoint : string).

(** The test of line 41, [total] being [len(environments)]. *)
Definition selected (environmentName : string) (total : nat)
    (env : Environment) : bool :=
  strings.EqualFold (normalizeEnvironmentName (Name env)) environmentName
  || (String.eqb environmentName EmptyString && Nat.eqb total 1).

(** The loop of lines 40 to 48 over what is left of the list: the first
    environment that is selected gives the configuration. *)
Fixpoint locate (endpoint environmentName : string) (total : nat)
    (environments : list Environment) : option cloud.Configuration :=
  match environments with
  | [] => None
  | env :: rest =>
      if selected environmentName total env then
        let env :=
          match ResourceManager env with
          | EmptyString => Set_ResourceManager ("https://" +:+ endpoint +:+ "/") env
          | _ => env
          end in
        Some (buildAzureCloudConfiguration env)
      else locate endpoint environmentName total rest
  end.

Section FromEndpoint.
(** The transport: building the request, sending it, and decoding the body
    of the response into environments. *)
Context {Request Response : Type}.
Variable http_NewRequestWithContext : string → string → result string Request.
Variable client_Do : Request → result string Response.
Variable json_Decode : Response → result string (list Environment).

(** The address asked for the environments of [endpoint] (line 19). *)
Definition metadataUri (endpoint : string) : string :=
  "https://" +:+ endpoint +:+ "/metadata/endpoints?api-version=2020-06-01".

(** Lines 14 to 51. *)
Definition FromEndpoint (endpoint environmentName : string)
    : result error cloud.Configuration :=
  let endpoint := strings.TrimPrefix endpoint "https://" in
  let endpoint := strings.TrimSuffix endpoint "/" in
  let uri := metadataUri endpoint in
  match http_NewRequestWithContext "GET" uri with
  | Err err => Err (Returned err)
  | Ok req =>
      match client_Do req with
      | Err err => Err (RetrievingEnvironments err)
      | Ok resp =>
          match json_Decode resp with
          | Err err => Err (Returned err)
          | Ok environments =>
              match locate endpoint environmentName (List.length environments)
                      environments with
              | Some configuration => Ok configuration
              | None => Err (UnableToLocate environmentName endpoint)
              end
          end
      end
  end.
End FromEndpoint.

End provider.

(** A metadata host to run [FromEndpoint] against. *)
Module metadata.
Import provider.

Definition host : string := "management.contoso.example".

Definition environment (name resourceManager : string) : Environment :=
  mkEnvironment EmptyString
    (mkAuthentication "https://login.contoso.example" [] "common" "AAD")
    EmptyString EmptyString EmptyString name
    (mkSuffixes EmptyString EmptyString EmptyString EmptyString EmptyString
       EmptyString EmptyString)
    EmptyString resourceManager EmptyString EmptyString EmptyString EmptyString.

Definition china : Environment :=
  environment "AzureChinaCloud" "https://management.chinacloudapi.example/".
Definition public : Environment := environment "AzureCloud" EmptyString.

(** The request is its address; the host answers at its own address only. *)
Definition NewRequest (method uri : string) : result string string := Ok uri.
Definition Do (environments : list Environment) (req : string)
    : result string (list Environment) :=
  if String.eqb req (metadataUri host) then Ok environments
  else Err "no such host".
Definition Decode (resp : list Environment) : result string (list Environment) :=
  Ok resp.

Definition lookup (environments : list Environment) (endpoint name : string)
    : result error cloud.Configuration :=
  FromEndpoint NewRequest (Do environments) Decode endpoint name.

End metadata.

(* ================================================================== *)
(** ** Names for what the statements below speak of *)
(* ================================================================== *)

(** A logged request that is a [Get]. *)
Definition is_get (entry : services.Call * services.Reply) : Prop :=
  match entry.1 with
  | services.CallGet _ _ => True
  | _ => False
  end.

(** The two characters that structure a selector path. *)
Abbreviation dot := ("."%char).
Abbreviation bracket := ("["%char).

(** A key of a selector path: not empty, and free of dots and brackets. *)
Definition is_key (k : string) : Prop :=
  k ≠ EmptyString
  ∧ (dot ∉ list_ascii_of_string k)
  ∧ (bracket ∉ list_ascii_of_string k).

(** The decimal numeral with the digits [ds], and the number it writes. *)
Definition digit_char (d : nat) : ascii := ascii_of_nat (48 + d).
Fixpoint numeral (ds : list nat) : string :=
  match ds with
  | [] => EmptyString
  | d :: rest => String (digit_char d) (numeral rest)
  end.
Definition numeral_value (ds : list nat) : nat :=
  foldl (fun acc d => (10 * acc + d)%nat) 0%nat ds.
Definition digits (ds : list nat) : Prop :=
  Forall (fun d => (d < 10)%nat) ds.

Section Transport.
Import strings provider.
Context {Request Response : Type}.
Variable http_NewRequestWithContext : string → string → result string Request.
Variable client_Do : Request → result string Response.
Variable json_Decode : Response → result string (list Environment).

(** The endpoint after lines 16 and 17. *)
Definition trimmed (endpoint : string) : string :=
  TrimSuffix (TrimPrefix endpoint "https://") "/".

(** The environment after lines 43 to 45. *)
Definition with_default (endpoint : string) (env : Environment) : Environment :=
  match ResourceManager env with
  | EmptyString => Set_ResourceManager ("https://" +:+ endpoint +:+ "/") env
  | _ => env
  end.

(** The names of the environments are ASCII text, on which [ToLower] and
    [EqualFold] above are Go's. *)
Definition ascii_names (environments : list Environment) : Prop :=
  Forall (fun e => isASCII (Name e) = true) environments.

(** The metadata service of [endpoint] answers, and its answer decodes to
    [environments]. *)
Definition delivers (endpoint : string) (environments : list Environment) : Prop :=
  ∃ req resp,
    http_NewRequestWithContext "GET" (metadataUri (trimmed endpoint)) = Ok req
    ∧ client_Do req = Ok resp
    ∧ json_Decode resp = Ok environments.
End Transport.

(* ================================================================== *)
(** ** Induction on documents *)
(* ================================================================== *)

Lemma json_size_elem (l : list json) (v : json) :
  v ∈ l → (json_size v < json_size (JArray l))%nat.
Proof.
  induction 1 as [v l | v u l _ IH]; simpl in *; lia.
Qed.

Lemma json_size_lookup (m : gmap string json) (k : string) (v : json) :
  m !! k = Some v → (json_size v < json_size (JObject m))%nat.
Proof.
  intros Hk. simpl.
  rewrite (map_fold_delete_L _ _ k v m); [lia | intros; lia | exact Hk].
Qed.

(** Structural induction, with the members of arrays and objects covered by
    the induction hypothesis. *)
Lemma json_induction (P : json → Prop) :
  P JNull →
  (∀ b, P (JBool b)) →
  (∀ n, P (JNumber n)) →
  (∀ s, P (JString s)) →
  (∀ l, Forall P l → P (JArray l)) →
  (∀ m, map_Forall (fun _ v => P v) m → P (JObject m)) →
  ∀ j, P j.
Proof.
  intros Hnull Hbool Hnum Hstr Harr Hobj j.
  induction (well_founded_ltof _ json_size j) as [j _ IH].
  destruct j as [| b | n | s | l | m]; auto.
  - apply Harr, Forall_forall. intros v Hv. apply IH, json_size_elem, Hv.
  - apply Hobj. intros k v Hk. apply IH. eapply json_size_lookup, Hk.
Qed.

(* ================================================================== *)
(** ** The merge engine *)
(* ================================================================== *)

Section MergeFacts.
Import utils.

(** In a merge of two objects, a key of the overlay carries the overlay's
    value, merged with the base's when both are objects. *)
Lemma GetMergedJson_overlay (bm om : gmap string json) (k : string) (o : json) :
  om !! k = Some o →
  ∃ r, GetMergedJson (JObject bm) (JObject om) = JObject r ∧
       r !! k = Some (match bm !! k, o with
                      | Some (JObject _ as b), JObject _ => GetMergedJson b o
                      | _, _ => o
                      end).
Proof.
  intros Hk. eexists. split; [reflexivity|].
  rewrite lookup_merge, Hk.
  destruct (bm !! k) as [[]|], o; reflexivity.
Qed.

Lemma GetUpdatedJson_same (x : json) : GetUpdatedJson x x = x.
Proof.
  induction x as [| | | | l _ | m IH] using json_induction; try reflexivity.
  cbn [GetUpdatedJson]. f_equal. apply map_eq. intros k.
  rewrite lookup_merge. destruct (m !! k) as [v|] eqn:Hk; [|reflexivity].
  cbn. f_equal. exact (IH k v Hk).
Qed.

(** A merge never makes a document disappear. *)
Lemma GetMergedJson_not_nil (base overlay : json) :
  is_nil overlay = false → is_nil (GetMergedJson base overlay) = false.
Proof.
  destruct base, overlay; cbn; congruence.
Qed.
End MergeFacts.

(** C9.  Merging a document with itself gives the document back:
    [Merge(x, x) = x] for every JSON value [x], whatever its nesting. *)
Theorem GetMergedJson_idempotent (x : json) : utils.GetMergedJson x x = x.
Proof.
  induction x as [| | | | l _ | m IH] using json_induction; try reflexivity.
  cbn [utils.GetMergedJson]. f_equal. apply map_eq. intros k.
  rewrite lookup_merge. destruct (m !! k) as [v|] eqn:Hk; [|reflexivity].
  cbn. pose proof (IH k v Hk) as Hv.
  destruct v; try reflexivity. cbn in Hv. f_equal. exact Hv.
Qed.

Section ReadFacts.
Import services utils.
Context {Remote : Type} (env : Env Remote).

Lemma Read_success (w : World Remote) (id : parse.ResourceId)
    (rep : Reply) (rem' : Remote) (requestBody : json) (text : string) :
  parse.ResourceID (separator env) (Id (w_data w)) = Ok id →
  client_Get env (w_remote w) (parse.Url id) (parse.ApiVersion id) = (rep, rem') →
  reply_err rep = None →
  read_desired env (body (w_data w)) (reply_body rep) = Ok requestBody →
  json_Marshal env (GetUpdatedJson requestBody (reply_body rep)) = Ok text →
  resourceAzureGenericResourceRead env w =
    (Ok tt,
     mkWorld (read_state env id (reply_body rep) text (w_data w)) rem'
             (w_log w ++ [(CallGet (parse.Url id) (parse.ApiVersion id), rep)])).
Proof.
  intros Hid Hget Herr Hdes Hmar.
  unfold resourceAzureGenericResourceRead, bind, getData, request, modify.
  rewrite Hid. cbn [w_data w_remote w_log]. rewrite Hget, Herr.
  cbn [w_data w_remote w_log].
  unfold read_desired in Hdes.
  destruct (json_Unmarshal env (body (w_data w))) as [v|e].
  - injection Hdes as ->. unfold ret. rewrite Hmar. reflexivity.
  - case_bool_decide; [|discriminate]. injection Hdes as ->.
    unfold ret. rewrite Hmar. reflexivity.
Qed.
End ReadFacts.

Section ReconcileOnRead.
Import services utils.
Context {Remote : Type} (env : Env Remote).

Lemma GetUpdatedJson_object (dm rm : gmap string json) :
  ∃ sm, GetUpdatedJson (JObject dm) (JObject rm) = JObject sm ∧
    ∀ k, sm !! k =
      match dm !! k with
      | Some dv =>
          Some (match rm !! k with
                | Some rv => GetUpdatedJson dv rv
                | None => dv
                end)
      | None => None
      end.
Proof.
  eexists. split; [reflexivity|]. intros k. rewrite lookup_merge.
  destruct (dm !! k), (rm !! k); reflexivity.
Qed.

Lemma GetUpdatedJson_seed (remoteDocument : json) (keys : list string) :
  GetUpdatedJson (GetIgnoredJson remoteDocument keys) remoteDocument
  = GetIgnoredJson remoteDocument keys.
Proof.
  destruct remoteDocument as [| | | | l | m]; try reflexivity.
  cbn [GetIgnoredJson GetUpdatedJson]. f_equal. apply map_eq. intros k.
  rewrite lookup_merge.
  destruct (filter _ m !! k) as [v|] eqn:Hk; [|by destruct (m !! k)].
  apply map_lookup_filter_Some in Hk as [Hk _]. rewrite Hk. cbn.
  f_equal. apply GetUpdatedJson_same.
Qed.

(** C1.  On read, when the stored body decodes to [desired] and the remote
    answers with [remote], the body written back is the text of
    [GetUpdatedJson desired remote]; for objects that document has exactly
    the keys of [desired], each with the remote's value (by the same rule,
    recursively) when the remote has the key and with the desired value
    otherwise, so keys of the remote alone are dropped.  For
    [{a:1, b:{c:2}}] against [{a:9, b:{c:2, d:5}, e:7}] the result is
    [{a:9, b:{c:2}}]. *)
Theorem Read_reconciles_body (w : World Remote) (id : parse.ResourceId)
    (rep : Reply) (rem' : Remote) (desired : json) (text : string) :
  parse.ResourceID (separator env) (Id (w_data w)) = Ok id →
  client_Get env (w_remote w) (parse.Url id) (parse.ApiVersion id) = (rep, rem') →
  reply_err rep = None →
  json_Unmarshal env (body (w_data w)) = Ok desired →
  json_Marshal env (GetUpdatedJson desired (reply_body rep)) = Ok text →
  (resourceAzureGenericResourceRead env w).1 = Ok tt
  ∧ body (w_data (resourceAzureGenericResourceRead env w).2) = text
  ∧ (∀ dm rm, desired = JObject dm → reply_body rep = JObject rm →
       ∃ sm, GetUpdatedJson desired (reply_body rep) = JObject sm ∧
         ∀ k, sm !! k =
           match dm !! k with
           | Some dv =>
               Some (match rm !! k with
                     | Some rv => GetUpdatedJson dv rv
                     | None => dv
                     end)
           | None => None
           end)
  ∧ GetUpdatedJson fixture.desired1 fixture.remote1 = fixture.stored1.
Proof.
  intros Hid Hget Herr Hdes Hmar.
  rewrite (Read_success env w id rep rem' desired text); try assumption.
  - split; [reflexivity|]. split; [reflexivity|]. split.
    + intros dm rm -> ->. apply GetUpdatedJson_object.
    + vm_compute. reflexivity.
  - unfold read_desired. rewrite Hdes. reflexivity.
Qed.

(** C2.  On read with an empty stored body (the state right after an
    import), the body written back is the text of the whole remote
    document without the unsupported properties.  With the unsupported
    properties [id] and [name], the remote
    [{id:X, name:Y, properties:{foo:1}}] seeds [{properties:{foo:1}}]. *)
Theorem Read_seeds_body_on_import (w : World Remote) (id : parse.ResourceId)
    (rep : Reply) (rem' : Remote) (cause text : string) :
  body (w_data w) = EmptyString →
  json_Unmarshal env EmptyString = Err cause →
  parse.ResourceID (separator env) (Id (w_data w)) = Ok id →
  client_Get env (w_remote w) (parse.Url id) (parse.ApiVersion id) = (rep, rem') →
  reply_err rep = None →
  json_Marshal env
    (GetIgnoredJson (reply_body rep) (getUnsupportedProperties env)) = Ok text →
  (resourceAzureGenericResourceRead env w).1 = Ok tt
  ∧ body (w_data (resourceAzureGenericResourceRead env w).2) = text
  ∧ GetUpdatedJson (GetIgnoredJson fixture.remote2 ["id"; "name"]) fixture.remote2
    = fixture.stored2.
Proof.
  intros Hbody Hun Hid Hget Herr Hmar.
  rewrite (Read_success env w id rep rem'
             (GetIgnoredJson (reply_body rep) (getUnsupportedProperties env)) text);
    try assumption.
  - split; [reflexivity|]. split; [reflexivity|]. vm_compute. reflexivity.
  - unfold read_desired. rewrite Hbody, Hun. reflexivity.
  - rewrite GetUpdatedJson_seed. exact Hmar.
Qed.
End ReconcileOnRead.

Lemma Read_reconciles_body_witness :
  services.body (services.w_data (services.resourceAzureGenericResourceRead
                  (fixture.env [fixture.desired1])
                  (fixture.world (fixture.managed (fixture.marshal fixture.desired1))
                                 {[ fixture.sampleUrl := fixture.remote1 ]})).2)
  = fixture.marshal fixture.stored1.
Proof.
  refine (proj1 (proj2 (Read_reconciles_body (fixture.env [fixture.desired1])
    (fixture.world (fixture.managed (fixture.marshal fixture.desired1))
                   {[ fixture.sampleUrl := fixture.remote1 ]})
    fixture.sampleId (services.mkReply fixture.remote1 200 None)
    {[ fixture.sampleUrl := fixture.remote1 ]} fixture.desired1
    (fixture.marshal fixture.stored1) _ _ _ _ _)));
    vm_compute; reflexivity.
Defined.

Lemma Read_seeds_body_on_import_witness :
  services.body (services.w_data (services.resourceAzureGenericResourceRead
                  (fixture.env [])
                  (fixture.world (fixture.managed EmptyString)
                                 {[ fixture.sampleUrl := fixture.remote2 ]})).2)
  = fixture.marshal fixture.stored2.
Proof.
  refine (proj1 (proj2 (Read_seeds_body_on_import (fixture.env [])
    (fixture.world (fixture.managed EmptyString)
                   {[ fixture.sampleUrl := fixture.remote2 ]})
    fixture.sampleId (services.mkReply fixture.remote2 200 None)
    {[ fixture.sampleUrl := fixture.remote2 ]} "invalid character"
    (fixture.marshal fixture.stored2) _ _ _ _ _ _)));
    vm_compute; reflexivity.
Defined.

(* ================================================================== *)
(** ** Output projection *)
(* ================================================================== *)

Section OutputProjection.
Import services utils.

Lemma collect_resolved (r acc : json) (ps : list string) :
  foldl (collect r) acc ps = foldl GetMergedJson acc (spec.resolved r ps).
Proof.
  revert acc. unfold spec.resolved.
  induction ps as [|p ps IH]; intros acc; [reflexivity|].
  rewrite fmap_cons, filter_cons. cbn [foldl]. rewrite IH. unfold collect.
  destruct (is_nil (ExtractObject r p)) eqn:Hp.
  - rewrite decide_False by congruence. reflexivity.
  - rewrite decide_True by reflexivity. reflexivity.
Qed.

Lemma merged_not_nil (acc : json) (parts : list json) :
  is_nil acc = false →
  Forall (fun part => is_nil part = false) parts →
  is_nil (foldl GetMergedJson acc parts) = false.
Proof.
  intros Hacc Hparts. revert acc Hacc.
  induction Hparts as [|part parts Hpart _ IH]; intros acc Hacc; [exact Hacc|].
  cbn [foldl]. apply IH, GetMergedJson_not_nil, Hpart.
Qed.

Lemma resolved_not_nil (r : json) (ps : list string) :
  Forall (fun part => is_nil part = false) (spec.resolved r ps).
Proof.
  apply Forall_forall. intros part Hin.
  apply list_elem_of_filter in Hin as [Hp _]. exact Hp.
Qed.

Lemma OutputDocument_not_nil (r : json) (ps : list string) :
  is_nil (spec.OutputDocument r ps) = false.
Proof.
  apply merged_not_nil; [reflexivity | apply resolved_not_nil].
Qed.

Lemma resolved_app (r : json) (ps qs : list string) :
  spec.resolved r (ps ++ qs) = spec.resolved r ps ++ spec.resolved r qs.
Proof.
  unfold spec.resolved. rewrite fmap_app. apply filter_app.
Qed.

Lemma resolved_absent (r : json) (p : string) :
  is_nil (ExtractObject r p) = true → spec.resolved r [p] = [].
Proof.
  intros Hp. unfold spec.resolved. cbn [fmap list_fmap].
  rewrite filter_cons, decide_False by congruence. reflexivity.
Qed.

Lemma resolved_present (r : json) (p : string) :
  is_nil (ExtractObject r p) = false → spec.resolved r [p] = [ExtractObject r p].
Proof.
  intros Hp. unfold spec.resolved. cbn [fmap list_fmap].
  rewrite filter_cons, decide_True by assumption. reflexivity.
Qed.

Context {Remote : Type} (env : Env Remote).

Lemma read_output_spec (r : json) (ps : list string) :
  read_output env r ps =
    match json_Marshal env (spec.OutputDocument r ps) with
    | Ok s => s
    | Err _ => EmptyString
    end.
Proof.
  unfold read_output. case_bool_decide as Hlen.
  - rewrite collect_resolved. fold (spec.OutputDocument r ps).
    rewrite OutputDocument_not_nil. reflexivity.
  - destruct ps; [reflexivity|]. discriminate Hlen.
Qed.

(** C7.  After a successful read the [output] attribute is the text of the
    document obtained by resolving the selector paths in list order against
    the remote document and merging what resolves, starting from the empty
    object.  A path that does not resolve can be struck from the list
    without changing the result, the part of the last path is the overlay
    of the merge (so its fields win), and when nothing resolves (or the
    list is empty) the document is the empty object. *)
Theorem Read_projects_output (w : World Remote) (id : parse.ResourceId)
    (rep : Reply) (rem' : Remote) (requestBody : json) (text : string) :
  parse.ResourceID (separator env) (Id (w_data w)) = Ok id →
  client_Get env (w_remote w) (parse.Url id) (parse.ApiVersion id) = (rep, rem') →
  reply_err rep = None →
  read_desired env (body (w_data w)) (reply_body rep) = Ok requestBody →
  json_Marshal env (GetUpdatedJson requestBody (reply_body rep)) = Ok text →
  output (w_data (resourceAzureGenericResourceRead env w).2) =
    match json_Marshal env
            (spec.OutputDocument (reply_body rep) (paths (w_data w))) with
    | Ok s => s
    | Err _ => EmptyString
    end
  ∧ (∀ r ps p qs, is_nil (ExtractObject r p) = true →
       spec.OutputDocument r (ps ++ p :: qs) = spec.OutputDocument r (ps ++ qs))
  ∧ (∀ r ps p, is_nil (ExtractObject r p) = false →
       spec.OutputDocument r (ps ++ [p])
       = GetMergedJson (spec.OutputDocument r ps) (ExtractObject r p))
  ∧ (∀ r ps, Forall (fun p => is_nil (ExtractObject r p) = true) ps →
       spec.OutputDocument r ps = JObject ∅).
Proof.
  intros Hid Hget Herr Hdes Hmar.
  rewrite (Read_success env w id rep rem' requestBody text) by assumption.
  split; [apply read_output_spec|]. split; [|split].
  - intros r ps p qs Hp. unfold spec.OutputDocument.
    change (p :: qs) with ([p] ++ qs).
    rewrite !resolved_app, (resolved_absent r p Hp). reflexivity.
  - intros r ps p Hp. unfold spec.OutputDocument.
    rewrite resolved_app, (resolved_present r p Hp), foldl_snoc. reflexivity.
  - intros r ps Hps. unfold spec.OutputDocument.
    replace (spec.resolved r ps) with (@nil json); [reflexivity|].
    induction Hps as [|p ps Hp _ IH]; [reflexivity|].
    change (p :: ps) with ([p] ++ ps).
    rewrite resolved_app, (resolved_absent r p Hp). exact IH.
Qed.
End OutputProjection.

Lemma Read_projects_output_witness :
  services.output (services.w_data (services.resourceAzureGenericResourceRead
     (fixture.env [fixture.stored2])
     (fixture.world
        (services.Set_paths ["properties.foo"; "properties.bar"]
           (fixture.managed (fixture.marshal fixture.stored2)))
        {[ fixture.sampleUrl := fixture.remote3 ]})).2)
  = fixture.marshal fixture.output3.
Proof.
  refine (proj1 (Read_projects_output (fixture.env [fixture.stored2])
    (fixture.world
        (services.Set_paths ["properties.foo"; "properties.bar"]
           (fixture.managed (fixture.marshal fixture.stored2)))
        {[ fixture.sampleUrl := fixture.remote3 ]})
    fixture.sampleId (services.mkReply fixture.remote3 200 None)
    {[ fixture.sampleUrl := fixture.remote3 ]} fixture.stored2
    (fixture.marshal (utils.GetUpdatedJson fixture.stored2 fixture.remote3))
    _ _ _ _ _));
    vm_compute; reflexivity.
Defined.

(* ================================================================== *)
(** ** Reading selector paths *)
(* ================================================================== *)

Section PathFacts.
Import utils.

Lemma string_app_cons (a : ascii) (s t : string) :
  String a s +:+ t = String a (s +:+ t).
Proof. reflexivity. Qed.

Lemma string_app_nil (t : string) : EmptyString +:+ t = t.
Proof. reflexivity. Qed.

Lemma chars_app (s t : string) :
  list_ascii_of_string (s +:+ t) = list_ascii_of_string s ++ list_ascii_of_string t.
Proof.
  induction s as [|a s IH]; [reflexivity|].
  rewrite string_app_cons. cbn [list_ascii_of_string app]. rewrite IH. reflexivity.
Qed.

Lemma split_on_free (c : ascii) (s : string) :
  c ∉ list_ascii_of_string s → path.split_on c s = [s].
Proof.
  induction s as [|a s IH]; intros Hc; [reflexivity|].
  cbn [list_ascii_of_string] in Hc. apply not_elem_of_cons in Hc as [Hne Hc].
  cbn [path.split_on]. destruct (Ascii.eqb_spec a c) as [->|_]; [contradiction|].
  rewrite (IH Hc). reflexivity.
Qed.

Lemma split_on_app (c : ascii) (s rest : string) :
  c ∉ list_ascii_of_string s →
  path.split_on c (s +:+ String c rest) = s :: path.split_on c rest.
Proof.
  induction s as [|a s IH]; intros Hc.
  - rewrite string_app_nil. cbn [path.split_on]. rewrite Ascii.eqb_refl. reflexivity.
  - cbn [list_ascii_of_string] in Hc. apply not_elem_of_cons in Hc as [Hne Hc].
    rewrite string_app_cons. cbn [path.split_on].
    destruct (Ascii.eqb_spec a c) as [->|_]; [contradiction|].
    rewrite (IH Hc). reflexivity.
Qed.

Lemma take_key_free (k : string) :
  bracket ∉ list_ascii_of_string k → path.take_key k = (k, EmptyString).
Proof.
  induction k as [|a k IH]; intros Hk; [reflexivity|].
  cbn [list_ascii_of_string] in Hk. apply not_elem_of_cons in Hk as [Hne Hk].
  cbn [path.take_key]. destruct (Ascii.eqb_spec a "[") as [->|_]; [contradiction|].
  rewrite (IH Hk). reflexivity.
Qed.

Lemma take_key_app (k rest : string) :
  bracket ∉ list_ascii_of_string k →
  path.take_key (k +:+ String "[" rest) = (k, String "[" rest).
Proof.
  induction k as [|a k IH]; intros Hk.
  - reflexivity.
  - cbn [list_ascii_of_string] in Hk. apply not_elem_of_cons in Hk as [Hne Hk].
    rewrite string_app_cons. cbn [path.take_key].
    destruct (Ascii.eqb_spec a "[") as [->|_]; [contradiction|].
    rewrite (IH Hk). reflexivity.
Qed.

Lemma digit_of_char (d : nat) :
  (d < 10)%nat →
  path.digit_of (digit_char d) = Some d
  ∧ Ascii.eqb (digit_char d) "]" = false
  ∧ digit_char d ≠ dot.
Proof.
  intros Hd. do 10 (destruct d as [|d]; [repeat split; discriminate|]). lia.
Qed.

Lemma numeral_free (ds : list nat) :
  digits ds → dot ∉ list_ascii_of_string (numeral ds).
Proof.
  induction 1 as [|d ds Hd _ IH]; cbn [numeral list_ascii_of_string].
  - apply not_elem_of_nil.
  - apply not_elem_of_cons. split; [|exact IH].
    intros Heq. symmetry in Heq. revert Heq. apply (digit_of_char d Hd).
Qed.

Lemma parse_indices_numeral (ds : list nat) (acc : nat) (rest : string) :
  digits ds →
  path.parse_indices (numeral ds +:+ String "]" rest) (Some (Some acc))
  = cons (foldl (fun a d => (10 * a + d)%nat) acc ds)
      <$> path.parse_indices rest None.
Proof.
  intros Hds. revert acc.
  induction Hds as [|d ds Hd _ IH]; intros acc.
  - reflexivity.
  - cbn [numeral]. rewrite string_app_cons. cbn [path.parse_indices foldl].
    destruct (digit_of_char d Hd) as (-> & -> & _). apply IH.
Qed.

Lemma parse_indices_bracket (d : nat) (ds : list nat) (rest : string) :
  digits (d :: ds) →
  path.parse_indices (String "[" (numeral (d :: ds) +:+ String "]" rest)) None
  = cons (numeral_value (d :: ds)) <$> path.parse_indices rest None.
Proof.
  intros Hds. inversion Hds as [|? ? Hd Hrest]; subst.
  cbn [numeral]. rewrite string_app_cons. cbn [path.parse_indices].
  destruct (digit_of_char d Hd) as (-> & -> & _).
  rewrite (parse_indices_numeral ds _ rest Hrest). reflexivity.
Qed.

(** A key alone is a piece with one segment. *)
Lemma parse_piece_key (k : string) :
  is_key k → path.parse_piece k = Some [Key k].
Proof.
  intros (Hne & _ & Hk). unfold path.parse_piece.
  rewrite (take_key_free k Hk). cbn [path.parse_indices].
  destruct k; [contradiction|reflexivity].
Qed.

(** A key with a bracketed numeral is a piece with two segments. *)
Lemma parse_piece_index (k : string) (d : nat) (ds : list nat) :
  is_key k →
  digits (d :: ds) →
  path.parse_piece (k +:+ String "[" (numeral (d :: ds) +:+ "]"))
  = Some [Key k; Index (numeral_value (d :: ds))].
Proof.
  intros (Hne & _ & Hk) Hds. unfold path.parse_piece.
  rewrite (take_key_app k _ Hk), (parse_indices_bracket d ds EmptyString Hds).
  cbn [path.parse_indices fmap option_fmap option_map].
  destruct k; [contradiction|reflexivity].
Qed.

Lemma piece_index_free (k : string) (ds : list nat) :
  is_key k →
  digits ds →
  dot ∉ list_ascii_of_string (k +:+ String "[" (numeral ds +:+ "]")).
Proof.
  intros (_ & Hk & _) Hds.
  rewrite chars_app. cbn [list_ascii_of_string]. rewrite chars_app.
  cbn [list_ascii_of_string].
  rewrite not_elem_of_app, not_elem_of_cons, not_elem_of_app, not_elem_of_cons.
  repeat split; try assumption; try discriminate.
  - apply numeral_free, Hds.
  - apply not_elem_of_nil.
Qed.

Lemma parse_single (piece : string) :
  dot ∉ list_ascii_of_string piece →
  path.parse piece = path.parse_piece piece.
Proof.
  intros Hp. unfold path.parse. rewrite (split_on_free _ _ Hp).
  cbn. destruct (path.parse_piece piece); [|reflexivity].
  cbn. rewrite app_nil_r. reflexivity.
Qed.

Lemma parse_dot (piece rest : string) :
  dot ∉ list_ascii_of_string piece →
  path.parse (piece +:+ String "." rest) =
    match path.parse_piece piece, path.parse rest with
    | Some front, Some back => Some (front ++ back)
    | _, _ => None
    end.
Proof.
  intros Hp. unfold path.parse. rewrite (split_on_app _ _ _ Hp).
  cbn. destruct (path.parse_piece piece); [|reflexivity].
  cbn. destruct (mapM path.parse_piece (path.split_on "." rest)); reflexivity.
Qed.

(** A piece alone resolves to what its segments lead to; followed by a dot
    and more, the rest is resolved from there. *)
Lemma ExtractObject_piece (doc : json) (piece : string) (front : list segment) :
  dot ∉ list_ascii_of_string piece →
  path.parse_piece piece = Some front →
  ExtractObject doc piece = walk doc front
  ∧ ∀ rest, ExtractObject doc (piece +:+ String "." rest)
            = ExtractObject (walk doc front) rest.
Proof.
  intros Hp Hfront. unfold ExtractObject. split.
  - rewrite (parse_single _ Hp), Hfront. reflexivity.
  - intros rest. rewrite (parse_dot _ _ Hp), Hfront.
    destruct (path.parse rest) as [back|]; [|reflexivity].
    unfold walk. apply foldl_app.
Qed.
End PathFacts.

(* ================================================================== *)
(** ** Path extraction *)
(* ================================================================== *)

Section ExtractFacts.
Import services utils.

Lemma step_nil (seg : segment) : step JNull seg = JNull.
Proof. destruct seg; reflexivity. Qed.

Lemma walk_nil (segs : list segment) : walk JNull segs = JNull.
Proof.
  induction segs as [|seg segs IH]; [reflexivity|].
  unfold walk in *. cbn [foldl]. rewrite step_nil. exact IH.
Qed.

Lemma walk_app (doc : json) (segs1 segs2 : list segment) :
  walk doc (segs1 ++ segs2) = walk (walk doc segs1) segs2.
Proof. apply foldl_app. Qed.

Lemma walk_absent (doc : json) (segs1 segs2 : list segment) (seg : segment) :
  is_nil (step (walk doc segs1) seg) = true →
  walk doc (segs1 ++ seg :: segs2) = JNull.
Proof.
  intros Hseg. rewrite walk_app. unfold walk at 1. cbn [foldl].
  fold (walk doc segs1).
  destruct (step (walk doc segs1) seg); try discriminate Hseg.
  apply walk_nil.
Qed.

Context {Remote : Type} (env : Env Remote).

(** The paths do not decide whether a read fails. *)
Lemma Read_result_paths (w : World Remote) (ps : list string) :
  (resourceAzureGenericResourceRead env
     (mkWorld (Set_paths ps (w_data w)) (w_remote w) (w_log w))).1
  = (resourceAzureGenericResourceRead env w).1.
Proof.
  unfold resourceAzureGenericResourceRead, bind, getData, request, modify, ret, fail.
  cbn [w_data w_remote w_log Set_paths Id body].
  destruct (parse.ResourceID _ _) as [id|e]; [|reflexivity].
  destruct (client_Get _ _ _ _) as [rep rem'].
  destruct (reply_err rep); [case_bool_decide; reflexivity|].
  destruct (json_Unmarshal _ _); [|case_bool_decide];
    try reflexivity; destruct (json_Marshal _ _); reflexivity.
Qed.

(** C8.  [ExtractObject] has a document for every document and path, and
    no other outcome: the value reached by following the segments of the
    path, or [nil].  It is [nil] when the path is not well formed and as
    soon as one segment is missing from the value it is applied to or is
    of the wrong kind for it (a key into something that is no object, an
    index into something that is no array or beyond its end).  Whatever the
    paths are, they do not change whether the read handler fails.  A path
    that is well formed resolves to the value its segments lead to: a key
    to the member of that name, an index to the element at that position,
    a key with a bracketed numeral to the element of the member, and a
    path continued behind a dot to what the rest resolves to from there. *)
Theorem ExtractObject_total (doc : json) (p : string) :
  (ExtractObject doc p = JNull
   ∨ ∃ segs, path.parse p = Some segs ∧ ExtractObject doc p = walk doc segs)
  ∧ (path.parse p = None → ExtractObject doc p = JNull)
  ∧ (∀ segs1 seg segs2,
       path.parse p = Some (segs1 ++ seg :: segs2) →
       is_nil (step (walk doc segs1) seg) = true →
       ExtractObject doc p = JNull)
  ∧ (∀ j k, is_object j = false → step j (Key k) = JNull)
  ∧ (∀ (m : gmap string json) k, m !! k = None → step (JObject m) (Key k) = JNull)
  ∧ (∀ j i, (∀ l, j ≠ JArray l) → step j (Index i) = JNull)
  ∧ (∀ (l : list json) i, (List.length l ≤ i)%nat → step (JArray l) (Index i) = JNull)
  ∧ (∀ (w : World Remote) ps,
       (resourceAzureGenericResourceRead env
          (mkWorld (Set_paths ps (w_data w)) (w_remote w) (w_log w))).1
       = (resourceAzureGenericResourceRead env w).1)
  ∧ (∀ segs, path.parse p = Some segs → ExtractObject doc p = walk doc segs)
  ∧ (∀ (m : gmap string json) k v, m !! k = Some v → step (JObject m) (Key k) = v)
  ∧ (∀ (l : list json) i v, l !! i = Some v → step (JArray l) (Index i) = v)
  ∧ (∀ k, is_key k →
       ExtractObject doc k = step doc (Key k)
       ∧ ∀ rest, ExtractObject doc (k +:+ String "." rest)
                 = ExtractObject (step doc (Key k)) rest)
  ∧ (∀ k d ds, is_key k → digits (d :: ds) →
       ExtractObject doc (k +:+ String "[" (numeral (d :: ds) +:+ "]"))
       = step (step doc (Key k)) (Index (numeral_value (d :: ds)))
       ∧ ∀ rest,
           ExtractObject doc
             ((k +:+ String "[" (numeral (d :: ds) +:+ "]")) +:+ String "." rest)
           = ExtractObject (step (step doc (Key k)) (Index (numeral_value (d :: ds))))
               rest).
Proof.
  repeat apply conj.
  - unfold ExtractObject.
    destruct (path.parse p) as [segs|]; [right; eauto | left; reflexivity].
  - unfold ExtractObject. intros ->. reflexivity.
  - unfold ExtractObject. intros segs1 seg segs2 -> Hseg. apply walk_absent, Hseg.
  - intros [] k Hj; try reflexivity. discriminate Hj.
  - intros m k Hk. cbn. rewrite Hk. reflexivity.
  - intros [] i Hj; try reflexivity. contradiction (Hj l eq_refl).
  - intros l i Hi. cbn. rewrite (lookup_ge_None_2 l i Hi). reflexivity.
  - apply Read_result_paths.
  - unfold ExtractObject. intros segs ->. reflexivity.
  - intros m k v Hk. cbn. rewrite Hk. reflexivity.
  - intros l i v Hi. cbn. rewrite Hi. reflexivity.
  - intros k Hk.
    exact (ExtractObject_piece doc k [Key k] (proj1 (proj2 Hk)) (parse_piece_key k Hk)).
  - intros k d ds Hk Hds.
    exact (ExtractObject_piece doc _ [Key k; Index (numeral_value (d :: ds))]
             (piece_index_free k (d :: ds) Hk Hds) (parse_piece_index k d ds Hk Hds)).
Qed.
End ExtractFacts.

Lemma ExtractObject_total_witness :
  utils.ExtractObject fixture.remote3 "properties.list[3].x" = JNull.
Proof.
  refine (proj1 (proj2 (proj2 (ExtractObject_total (fixture.env [])
    fixture.remote3 "properties.list[3].x")))
    [utils.Key "properties"; utils.Key "list"] (utils.Index 3) [utils.Key "x"] _ _);
    vm_compute; reflexivity.
Defined.

(* ================================================================== *)
(** ** Create and update *)
(* ================================================================== *)

Section CreateFacts.
Import services utils.
Context {Remote : Type} (env : Env Remote).

Local Ltac compose_tail d :=
  destruct (GetOk_identity d);
    [destruct (azure_ExpandIdentity env (identity d))|];
    simplify_eq; destruct (GetOk_tags d), (GetOk_location d);
    cbn [omap list_omap id foldl w_data w_remote w_log];
    destruct (client_CreateUpdate _ _ _ _ _ _) as [r rem2]; cbn [fst snd];
    destruct (reply_err r); reflexivity.


Local Ltac cases_tail d :=
  destruct (json_Unmarshal env (body d)) as [desired|];
    [|left; eexists; split; [|reflexivity]; exact I];
  destruct (GetOk_identity d);
    [destruct (azure_ExpandIdentity env (identity d));
     [|left; eexists; split; [|reflexivity]; exact I]|];
  cbn [w_data w_remote w_log];
  (destruct (client_CreateUpdate _ _ _ _ _ _) as [r rem2] eqn:Hcu;
   right; eexists; exists r, rem2, desired; split; [reflexivity|]; split; [exact Hcu|];
   destruct (reply_err r); reflexivity).

Lemma Read_log (w : World Remote) :
  ∃ rest, w_log (resourceAzureGenericResourceRead env w).2 = w_log w ++ rest.
Proof.
  unfold resourceAzureGenericResourceRead, bind, getData, request, modify, ret, fail.
  cbn [w_data w_remote w_log].
  destruct (parse.ResourceID _ _) as [id|e]; [|exists []; by rewrite app_nil_r].
  destruct (client_Get _ _ _ _) as [rep rem'].
  destruct (reply_err rep); [case_bool_decide; eexists; reflexivity|].
  destruct (json_Unmarshal _ _); [|case_bool_decide];
    try (eexists; reflexivity); destruct (json_Marshal _ _); eexists; reflexivity.
Qed.

Lemma Read_error (w : World Remote) (e : error) (v : json) :
  (resourceAzureGenericResourceRead env w).1 = Err e →
  json_Unmarshal env (body (w_data w)) = Ok v →
  before_commit e → False.
Proof.
  unfold resourceAzureGenericResourceRead, bind, getData, request, modify, ret, fail.
  cbn [w_data w_remote w_log]. intros He Hv.
  destruct (parse.ResourceID _ _) as [id|e']; [|by injection He as <-].
  destruct (client_Get _ _ _ _) as [rep rem'].
  destruct (reply_err rep); [case_bool_decide; [discriminate|by injection He as <-]|].
  rewrite Hv in He.
  destruct (json_Marshal _ _); [discriminate | by injection He as <-].
Qed.

Lemma CreateUpdate_run (w : World Remote) (desired : json) (idFrag : option json) :
  json_Unmarshal env (body (w_data w)) = Ok desired →
  identity_fragment env (w_data w) = Ok idFrag →
  guard_passes env w →
  let d := w_data w in
  let id := parse.NewResourceID (url d) (api_version d) in
  let w1 := after_guard env w in
  let c := CallCreateUpdate (url d) (api_version d)
             (spec.ComposedBody desired (tags_fragment d) (location_fragment d) idFrag)
             (method_of d) in
  let r := client_CreateUpdate env (w_remote w1) (url d) (api_version d)
             (spec.ComposedBody desired (tags_fragment d) (location_fragment d) idFrag)
             (method_of d) in
  resourceAzureGenericResourceCreateUpdate env w =
    match reply_err r.1 with
    | Some err =>
        (Err (RemoteError CreatingUpdating id err),
         mkWorld d r.2 (w_log w1 ++ [(c, r.1)]))
    | None =>
        resourceAzureGenericResourceRead env
          (mkWorld (SetId (parse.ID (separator env) id) d) r.2 (w_log w1 ++ [(c, r.1)]))
    end.
Proof.
  intros Hdes Hidf Hguard. cbn zeta.
  unfold resourceAzureGenericResourceCreateUpdate, bind, getData, request, modify, ret, fail.
  unfold guard_passes, after_guard in *.
  cbn [w_data w_remote w_log parse.Url parse.ApiVersion parse.NewResourceID] in *.
  destruct w as [d rem lg]. cbn [w_data w_remote w_log] in *.
  rewrite Hdes.
  unfold method_of, identity_fragment, tags_fragment, location_fragment,
    spec.ComposedBody in *.
  destruct (IsNewResource d).
  - specialize (Hguard eq_refl). cbn [w_data w_remote w_log].
    destruct (client_Get env rem (url d) (api_version d)) as [rep rem'].
    cbn [fst] in Hguard. destruct Hguard as [Hst Hlen].
    cbn [w_data w_remote w_log].
    destruct (reply_err rep) as [err|].
    + destruct Hst as [|Hst]; [discriminate|].
      rewrite (bool_decide_false (StatusCode rep ≠ StatusNotFound)) by tauto.
      rewrite Hlen, (bool_decide_false (0 < 0)%nat) by lia.
      cbn [w_data w_remote w_log]. compose_tail d.
    + rewrite Hlen, (bool_decide_false (0 < 0)%nat) by lia.
      cbn [w_data w_remote w_log]. compose_tail d.
  - cbn [w_data w_remote w_log]. compose_tail d.
Qed.

Lemma CreateUpdate_conflict (w : World Remote) (rep : Reply) (rem' : Remote) :
  IsNewResource (w_data w) = true →
  client_Get env (w_remote w) (url (w_data w)) (api_version (w_data w)) = (rep, rem') →
  reply_err rep = None ∨ StatusCode rep = StatusNotFound →
  (0 < String.length (utils_GetId env (reply_body rep)))%nat →
  resourceAzureGenericResourceCreateUpdate env w =
    (Err (ImportAsExistsError "azurermg_resource"
            (parse.ID (separator env)
               (parse.NewResourceID (url (w_data w)) (api_version (w_data w))))),
     mkWorld (w_data w) rem'
       (w_log w ++ [(CallGet (url (w_data w)) (api_version (w_data w)), rep)])).
Proof.
  intros Hnew Hget Hst Hlen.
  unfold resourceAzureGenericResourceCreateUpdate, bind, getData, request, modify, ret, fail.
  cbn [w_data w_remote w_log parse.Url parse.ApiVersion parse.NewResourceID].
  rewrite Hnew. cbn [w_data w_remote w_log]. rewrite Hget.
  cbn [w_data w_remote w_log].
  rewrite (bool_decide_true _ Hlen).
  destruct (reply_err rep) as [err|]; [|reflexivity].
  destruct Hst as [|Hst]; [discriminate|].
  rewrite (bool_decide_false (StatusCode rep ≠ StatusNotFound)) by tauto.
  reflexivity.
Qed.

Lemma CreateUpdate_cases (w : World Remote) :
  let d := w_data w in
  let id := parse.NewResourceID (url d) (api_version d) in
  let w1 := after_guard env w in
  (∃ e, before_commit e ∧
        resourceAzureGenericResourceCreateUpdate env w = (Err e, w1))
  ∨ (∃ b rep rem2 desired,
       json_Unmarshal env (body d) = Ok desired ∧
       client_CreateUpdate env (w_remote w1) (url d) (api_version d) b (method_of d)
         = (rep, rem2) ∧
       resourceAzureGenericResourceCreateUpdate env w =
         match reply_err rep with
         | Some err =>
             (Err (RemoteError CreatingUpdating id err),
              mkWorld d rem2
                (w_log w1 ++ [(CallCreateUpdate (url d) (api_version d) b (method_of d), rep)]))
         | None =>
             resourceAzureGenericResourceRead env
               (mkWorld (SetId (parse.ID (separator env) id) d) rem2
                  (w_log w1 ++ [(CallCreateUpdate (url d) (api_version d) b (method_of d), rep)]))
         end).
Proof.
  cbn zeta.
  unfold resourceAzureGenericResourceCreateUpdate, bind, getData, request, modify, ret, fail.
  unfold after_guard, method_of.
  cbn [w_data w_remote w_log parse.Url parse.ApiVersion parse.NewResourceID].
  destruct w as [d rem lg]. cbn [w_data w_remote w_log].
  destruct (IsNewResource d); cbn [w_data w_remote w_log].
  - destruct (client_Get env rem (url d) (api_version d)) as [rep0 rem'].
    cbn [w_data w_remote w_log].
    destruct (reply_err rep0) as [err|]; [case_bool_decide|];
      try (left; eexists; split; [|reflexivity]; exact I);
      (case_bool_decide; [left; eexists; split; [|reflexivity]; exact I|]);
      cbn [w_data w_remote w_log]; cases_tail d.
  - cases_tail d.
Qed.

Lemma issued_app (handler : M Remote unit) (w : World Remote)
    (new : list (Call * Reply)) :
  w_log (handler w).2 = w_log w ++ new → issued handler w = new.
Proof. intros Hlog. unfold issued. rewrite Hlog. apply drop_app_length. Qed.

Lemma after_guard_log (w : World Remote) :
  w_log (after_guard env w) =
    w_log w ++
    (if IsNewResource (w_data w)
     then [(CallGet (url (w_data w)) (api_version (w_data w)),
            (client_Get env (w_remote w) (url (w_data w)) (api_version (w_data w))).1)]
     else []).
Proof.
  unfold after_guard. destruct (IsNewResource (w_data w)).
  - destruct (client_Get _ _ _ _). reflexivity.
  - symmetry. apply app_nil_r.
Qed.

Lemma after_guard_data (w : World Remote) :
  w_data (after_guard env w) = w_data w.
Proof.
  unfold after_guard. destruct (IsNewResource (w_data w)); [|reflexivity].
  destruct (client_Get _ _ _ _). reflexivity.
Qed.

(** The log of a create or update: the existence check, then what
    follows. *)
Lemma CreateUpdate_log (w : World Remote) :
  ∃ rest,
    w_log (resourceAzureGenericResourceCreateUpdate env w).2 =
      w_log (after_guard env w) ++ rest.
Proof.
  destruct (CreateUpdate_cases w) as [(e & _ & ->) | (b & rep & rem2 & v & _ & _ & ->)].
  - exists []. symmetry. apply app_nil_r.
  - destruct (reply_err rep).
    + eexists. reflexivity.
    + destruct (Read_log (mkWorld
          (SetId (parse.ID (separator env)
             (parse.NewResourceID (url (w_data w)) (api_version (w_data w))))
             (w_data w)) rem2
          (w_log (after_guard env w) ++
             [(CallCreateUpdate (url (w_data w)) (api_version (w_data w)) b
                 (method_of (w_data w)), rep)]))) as [rest ->].
      cbn [w_log]. rewrite <- app_assoc. eexists. reflexivity.
Qed.

(** C3.  For a new resource the first request of a create is a [Get] on
    the url and api version of the resource; when that [Get] does not fail
    (a 404 apart) and returns a document that carries an id, the create
    fails with the import-as-exists error, the [Get] is the only request
    issued (no [CreateUpdate] is sent), and the resource record is left as
    it was. *)
Theorem CreateUpdate_existence_guard (w : World Remote) (rep : Reply) (rem' : Remote) :
  IsNewResource (w_data w) = true →
  client_Get env (w_remote w) (url (w_data w)) (api_version (w_data w)) = (rep, rem') →
  (∃ rest, issued (resourceAzureGenericResourceCreateUpdate env) w
           = (CallGet (url (w_data w)) (api_version (w_data w)), rep) :: rest)
  ∧ (reply_err rep = None ∨ StatusCode rep = StatusNotFound →
     (0 < String.length (utils_GetId env (reply_body rep)))%nat →
     (resourceAzureGenericResourceCreateUpdate env w).1
       = Err (ImportAsExistsError "azurermg_resource"
                (parse.ID (separator env)
                   (parse.NewResourceID (url (w_data w)) (api_version (w_data w)))))
     ∧ issued (resourceAzureGenericResourceCreateUpdate env) w
       = [(CallGet (url (w_data w)) (api_version (w_data w)), rep)]
     ∧ w_data (resourceAzureGenericResourceCreateUpdate env w).2 = w_data w).
Proof.
  intros Hnew Hget. split.
  - destruct (CreateUpdate_log w) as [rest Hlog].
    rewrite after_guard_log, Hnew, Hget, <- app_assoc in Hlog.
    exists rest. apply issued_app. exact Hlog.
  - intros Hst Hlen. unfold issued.
    rewrite (CreateUpdate_conflict w rep rem' Hnew Hget Hst Hlen).
    cbn [fst snd w_log w_data].
    split; [reflexivity|]. split; [apply drop_app_length | reflexivity].
Qed.

(** C5.  When the body decodes to [desired], the identity block (if any)
    expands and the existence check lets the handler go on, the request
    that follows the existence check is a [CreateUpdate] whose body is
    [desired] merged with the tags fragment, then the location fragment,
    then the identity fragment, each only when its attribute is set; in
    each merge the fragment is the overlay, so at a key both sides have the
    fragment's value stands (merged recursively when both are objects). *)
Theorem CreateUpdate_composes_body (w : World Remote) (desired : json)
    (idFrag : option json) :
  json_Unmarshal env (body (w_data w)) = Ok desired →
  identity_fragment env (w_data w) = Ok idFrag →
  guard_passes env w →
  (∃ rep rest,
     w_log (resourceAzureGenericResourceCreateUpdate env w).2 =
       w_log (after_guard env w) ++
       (CallCreateUpdate (url (w_data w)) (api_version (w_data w))
          (spec.ComposedBody desired (tags_fragment (w_data w))
             (location_fragment (w_data w)) idFrag)
          (method_of (w_data w)), rep) :: rest)
  ∧ (∀ t l i, spec.ComposedBody desired (Some t) (Some l) (Some i)
              = GetMergedJson (GetMergedJson (GetMergedJson desired t) l) i)
  ∧ (tags (w_data w) = ∅ → tags_fragment (w_data w) = None)
  ∧ (location (w_data w) = EmptyString → location_fragment (w_data w) = None)
  ∧ (identity (w_data w) = [] → idFrag = None)
  ∧ (∀ (bm om : gmap string json) k o, om !! k = Some o →
       ∃ r, GetMergedJson (JObject bm) (JObject om) = JObject r ∧
            r !! k = Some (match bm !! k, o with
                           | Some (JObject _ as b), JObject _ => GetMergedJson b o
                           | _, _ => o
                           end)).
Proof.
  intros Hdes Hidf Hguard. split; [|split; [|split; [|split; [|split]]]].
  - pose proof (CreateUpdate_run w desired idFrag Hdes Hidf Hguard) as Hrun.
    cbn zeta in Hrun. rewrite Hrun.
    destruct (client_CreateUpdate _ _ _ _ _ _) as [rep rem2]. cbn [fst snd].
    exists rep. destruct (reply_err rep).
    + exists []. reflexivity.
    + match goal with |- context [resourceAzureGenericResourceRead env ?w0] =>
        destruct (Read_log w0) as [rest ->] end.
      cbn [w_log]. rewrite <- app_assoc. exists rest. reflexivity.
  - reflexivity.
  - intros Ht. unfold tags_fragment, GetOk_tags.
    rewrite bool_decide_false by tauto. reflexivity.
  - intros Hl. unfold location_fragment, GetOk_location.
    rewrite bool_decide_false by tauto. reflexivity.
  - intros Hi. unfold identity_fragment, GetOk_identity in Hidf.
    rewrite bool_decide_false in Hidf by tauto. congruence.
  - apply GetMergedJson_overlay.
Qed.

(** C10.  A create or update writes the identifier only after the remote
    [CreateUpdate] call has succeeded: when the identifier in the record
    differs from what it was, a [CreateUpdate] request with a reply without
    error is among the requests issued; and when the handler returns the
    error of the existence check, of decoding the body, of expanding the
    identity or of the remote [CreateUpdate] call, the identifier is what
    it was. *)
Theorem CreateUpdate_sets_id_after_success (w : World Remote) :
  (Id (w_data (resourceAzureGenericResourceCreateUpdate env w).2) ≠ Id (w_data w) →
   ∃ b rep,
     (CallCreateUpdate (url (w_data w)) (api_version (w_data w)) b
        (method_of (w_data w)), rep)
       ∈ issued (resourceAzureGenericResourceCreateUpdate env) w
     ∧ reply_err rep = None)
  ∧ (∀ e, (resourceAzureGenericResourceCreateUpdate env w).1 = Err e →
          before_commit e →
          Id (w_data (resourceAzureGenericResourceCreateUpdate env w).2)
          = Id (w_data w)).
Proof.
  destruct (CreateUpdate_cases w)
    as [(e & He & Heq) | (b & rep & rem2 & v & Hv & Hcu & Heq)];
    cbn zeta in Heq.
  - rewrite Heq. cbn [fst snd]. rewrite after_guard_data. split; [tauto|reflexivity].
  - destruct (reply_err rep) as [err|] eqn:Herr.
    + rewrite Heq. cbn [fst snd w_data]. split; [tauto|reflexivity].
    + split.
      * intros _. exists b, rep. split; [|exact Herr].
        match type of Heq with _ = resourceAzureGenericResourceRead env ?w0 =>
          destruct (Read_log w0) as [rest Hlog] end.
        rewrite <- Heq in Hlog. cbn [w_log] in Hlog.
        rewrite after_guard_log, <- !app_assoc in Hlog.
        rewrite (issued_app _ w _ Hlog).
        apply elem_of_app. right. apply elem_of_app. left. apply list_elem_of_singleton.
        reflexivity.
      * intros e He Hbefore. exfalso. rewrite Heq in He.
        exact (Read_error _ e v He Hv Hbefore).
Qed.
End CreateFacts.

Lemma CreateUpdate_existence_guard_witness :
  (services.resourceAzureGenericResourceCreateUpdate (fixture.env [fixture.stored2])
     (fixture.world (fixture.blank true (fixture.marshal fixture.stored2))
                    {[ fixture.sampleUrl := fixture.remote2 ]})).1
  = Err (services.ImportAsExistsError "azurermg_resource"
           (parse.ID "?" fixture.sampleId)).
Proof.
  refine (proj1 (proj2 (CreateUpdate_existence_guard (fixture.env [fixture.stored2])
    (fixture.world (fixture.blank true (fixture.marshal fixture.stored2))
                   {[ fixture.sampleUrl := fixture.remote2 ]})
    (services.mkReply fixture.remote2 200 None)
    {[ fixture.sampleUrl := fixture.remote2 ]} _ _) _ _)).
  - reflexivity.
  - vm_compute. reflexivity.
  - left. reflexivity.
  - vm_compute. lia.
Defined.

(** C3, counterexample.  A non-empty body returned by the [Get] is not
    enough for the create to fail: a new resource, and a remote service that
    answers the [Get] without error with a document that has members but no
    id.  The existence check tests the id of the document, not the document,
    so the create goes on: the [CreateUpdate] request is sent and the handler
    returns without error. *)
Lemma CreateUpdate_existence_guard_counterexample :
  let env := fixture.env [fixture.stored2] in
  let w := fixture.world (fixture.blank true (fixture.marshal fixture.stored2))
             {[ fixture.sampleUrl := fixture.stored2 ]} in
  let rep := (services.client_Get env (services.w_remote w)
                fixture.sampleUrl fixture.sampleApi).1 in
  services.IsNewResource (services.w_data w) = true
  ∧ services.reply_err rep = None
  ∧ services.reply_body rep = fixture.stored2
  ∧ fixture.stored2 ≠ JNull
  ∧ fixture.stored2 ≠ JObject ∅
  ∧ (services.resourceAzureGenericResourceCreateUpdate env w).1 = Ok tt
  ∧ (services.resourceAzureGenericResourceCreateUpdate env w).1
    ≠ Err (services.ImportAsExistsError "azurermg_resource"
             (parse.ID "?" fixture.sampleId))
  ∧ In (services.CallCreateUpdate fixture.sampleUrl fixture.sampleApi
          fixture.stored2 "PUT",
        services.mkReply fixture.stored2 200 None)
       (issued (services.resourceAzureGenericResourceCreateUpdate env) w).
Proof.
  cbn zeta. repeat apply conj.
  - reflexivity.
  - reflexivity.
  - reflexivity.
  - discriminate.
  - intros Heq. vm_compute in Heq. discriminate Heq.
  - vm_compute. reflexivity.
  - intros Heq. vm_compute in Heq. discriminate Heq.
  - vm_compute. right. left. reflexivity.
Qed.

Lemma CreateUpdate_composes_body_witness :
  ∃ rep rest,
    services.w_log (services.resourceAzureGenericResourceCreateUpdate
                      (fixture.env [fixture.desired1]) fixture.tagged).2
    = services.w_log (after_guard (fixture.env [fixture.desired1]) fixture.tagged) ++
      (services.CallCreateUpdate fixture.sampleUrl fixture.sampleApi
         (spec.ComposedBody fixture.desired1
            (Some (azure.ExpandTags {[ "env" := "prod" ]}))
            (Some (azure.ExpandLocation "westeurope")) None)
         "PUT", rep) :: rest.
Proof.
  refine (proj1 (CreateUpdate_composes_body (fixture.env [fixture.desired1])
    fixture.tagged fixture.desired1 None _ _ _)).
  - vm_compute. reflexivity.
  - vm_compute. reflexivity.
  - intros Hnew. vm_compute in Hnew. discriminate Hnew.
Defined.

Lemma CreateUpdate_sets_id_after_success_witness :
  services.Id (services.w_data
    (services.resourceAzureGenericResourceCreateUpdate (fixture.env [JNumber 5])
       (fixture.world (fixture.blank false (fixture.marshal (JNumber 5))) ∅)).2)
  = EmptyString.
Proof.
  refine (proj2 (CreateUpdate_sets_id_after_success (fixture.env [JNumber 5])
    (fixture.world (fixture.blank false (fixture.marshal (JNumber 5))) ∅))
    (services.RemoteError services.CreatingUpdating fixture.sampleId "BadRequest") _ _).
  - vm_compute. reflexivity.
  - exact I.
Defined.

(* ================================================================== *)
(** ** Remote errors on read and delete *)
(* ================================================================== *)

Section NotFound.
Import services.
Context {Remote : Type} (env : Env Remote).

(** X20.  A 404 on read: the handler returns no error, empties the
    identifier (the resource leaves the state) and changes nothing else of
    the record; the [Get] is the only request. *)
Lemma Read_not_found (w : World Remote) (id : parse.ResourceId)
    (rep : Reply) (rem' : Remote) (err : string) :
  parse.ResourceID (separator env) (Id (w_data w)) = Ok id →
  client_Get env (w_remote w) (parse.Url id) (parse.ApiVersion id) = (rep, rem') →
  reply_err rep = Some err →
  StatusCode rep = StatusNotFound →
  resourceAzureGenericResourceRead env w =
    (Ok tt,
     mkWorld (SetId EmptyString (w_data w)) rem'
       (w_log w ++ [(CallGet (parse.Url id) (parse.ApiVersion id), rep)])).
Proof.
  intros Hid Hget Herr Hst.
  unfold resourceAzureGenericResourceRead, bind, getData, request, modify, fail.
  rewrite Hid. cbn [w_data w_remote w_log]. rewrite Hget, Herr.
  rewrite (bool_decide_true _ Hst). reflexivity.
Qed.

(** X21.  Any other error of the [Get] on read is returned wrapped with the
    operation and the identifier decoded from the state; the record is left
    as it was. *)
Lemma Read_remote_error (w : World Remote) (id : parse.ResourceId)
    (rep : Reply) (rem' : Remote) (err : string) :
  parse.ResourceID (separator env) (Id (w_data w)) = Ok id →
  client_Get env (w_remote w) (parse.Url id) (parse.ApiVersion id) = (rep, rem') →
  reply_err rep = Some err →
  StatusCode rep ≠ StatusNotFound →
  resourceAzureGenericResourceRead env w =
    (Err (RemoteError Reading id err),
     mkWorld (w_data w) rem'
       (w_log w ++ [(CallGet (parse.Url id) (parse.ApiVersion id), rep)])).
Proof.
  intros Hid Hget Herr Hst.
  unfold resourceAzureGenericResourceRead, bind, getData, request, modify, fail.
  rewrite Hid. cbn [w_data w_remote w_log]. rewrite Hget, Herr.
  rewrite (bool_decide_false _ Hst). reflexivity.
Qed.

(** Every error of the remote [Delete] is returned with the operation and
    the identifier, whatever the status code. *)
Lemma Delete_remote_error (w : World Remote) (id : parse.ResourceId)
    (rep : Reply) (rem' : Remote) (err : string) :
  parse.ResourceID (separator env) (Id (w_data w)) = Ok id →
  client_Delete env (w_remote w) (parse.Url id) (parse.ApiVersion id) = (rep, rem') →
  reply_err rep = Some err →
  resourceAzureGenericResourceDelete env w =
    (Err (RemoteError Deleting id err),
     mkWorld (w_data w) rem'
       (w_log w ++ [(CallDelete (parse.Url id) (parse.ApiVersion id), rep)])).
Proof.
  intros Hid Hdel Herr.
  unfold resourceAzureGenericResourceDelete, bind, getData, request, fail.
  rewrite Hid. cbn [w_data w_remote w_log]. rewrite Hdel, Herr. reflexivity.
Qed.
End NotFound.

(** C4.  The resource is in the state and gone from the remote service,
    which answers 404 to [Get] and to [Delete].  The read handler takes the
    404 as absence: it returns no error and clears the identifier.  The
    delete handler returns the 404 as an error, wrapped with the operation
    and the identifier. *)
Theorem Delete_not_found_is_error :
  let w := fixture.world (fixture.managed EmptyString) ∅ in
  (services.resourceAzureGenericResourceRead (fixture.env []) w).1 = Ok tt
  ∧ services.Id (services.w_data
      (services.resourceAzureGenericResourceRead (fixture.env []) w).2) = EmptyString
  ∧ (services.resourceAzureGenericResourceDelete (fixture.env []) w).1
    = Err (services.RemoteError services.Deleting fixture.sampleId "ResourceNotFound")
  ∧ issued (services.resourceAzureGenericResourceDelete (fixture.env [])) w
    = [(services.CallDelete fixture.sampleUrl fixture.sampleApi, fixture.notFound)].
Proof.
  cbn zeta. repeat apply conj; vm_compute; reflexivity.
Qed.

(* ================================================================== *)
(** ** Resource identifiers *)
(* ================================================================== *)

Section Identifier.
Variable sep : ascii.

Lemma split_first_app (url rest : string) :
  sep ∉ list_ascii_of_string url →
  parse.split_first sep (url +:+ String sep rest) = Some (url, rest).
Proof.
  induction url as [|a url IH]; intros Hsep.
  - change (parse.split_first sep (String sep rest) = Some (EmptyString, rest)).
    cbn [parse.split_first]. rewrite Ascii.eqb_refl. reflexivity.
  - change (parse.split_first sep (String a (url +:+ String sep rest))
            = Some (String a url, rest)).
    cbn [parse.split_first list_ascii_of_string] in *.
    apply not_elem_of_cons in Hsep as [Hne Hsep].
    destruct (Ascii.eqb_spec a sep) as [->|_]; [contradiction|].
    rewrite (IH Hsep). reflexivity.
Qed.

Lemma hex_value_digit (n : nat) :
  (n < 16)%nat → parse.hex_value (parse.hex_digit n) = Some n.
Proof.
  intros Hn. do 16 (destruct n as [|n]; [reflexivity|]). lia.
Qed.

(** A character is given back by the two digits it is written with. *)
Lemma hex_pair (c : ascii) :
  parse.hex_value (parse.hex_digit (nat_of_ascii c / 16)) = Some (nat_of_ascii c / 16)%nat
  ∧ parse.hex_value (parse.hex_digit (nat_of_ascii c mod 16))
    = Some (nat_of_ascii c mod 16)%nat
  ∧ ascii_of_nat (16 * (nat_of_ascii c / 16) + nat_of_ascii c mod 16) = c.
Proof.
  destruct c as [[] [] [] [] [] [] [] []]; vm_compute; repeat split; reflexivity.
Qed.

Hypothesis sep_reserved : parse.reserved sep = true.

Lemma sep_not_percent : sep ≠ "%"%char.
Proof.
  intros ->. discriminate sep_reserved.
Qed.

Lemma sep_not_hex (n : nat) : (n < 16)%nat → parse.hex_digit n ≠ sep.
Proof.
  intros Hn Heq. pose proof (hex_value_digit n Hn) as Hv. rewrite Heq in Hv.
  pose proof sep_reserved as Hres. unfold parse.reserved in Hres.
  apply andb_true_iff in Hres as [_ Hres].
  rewrite Hv in Hres. rewrite bool_decide_true in Hres by eauto.
  discriminate Hres.
Qed.

(** An escaped field is free of the separator. *)
Lemma escape_free (s : string) :
  sep ∉ list_ascii_of_string (parse.escape sep s).
Proof.
  induction s as [|c s IH]; cbn [parse.escape list_ascii_of_string].
  - apply not_elem_of_nil.
  - unfold parse.escaped.
    destruct (Ascii.eqb_spec c sep) as [->|Hc]; cbn [orb].
    + cbn [list_ascii_of_string]. rewrite !not_elem_of_cons.
      repeat split; try exact IH.
      * exact sep_not_percent.
      * intros Heq. symmetry in Heq. revert Heq. apply sep_not_hex.
        apply Nat.Div0.div_lt_upper_bound. pose proof (nat_ascii_bounded sep). lia.
      * intros Heq. symmetry in Heq. revert Heq. apply sep_not_hex.
        apply Nat.mod_upper_bound. lia.
    + destruct (Ascii.eqb_spec c "%") as [->|Hp]; cbn [list_ascii_of_string].
      * rewrite !not_elem_of_cons. repeat split; try exact IH.
        -- exact sep_not_percent.
        -- intros Heq. symmetry in Heq. revert Heq. apply sep_not_hex.
           vm_compute. lia.
        -- intros Heq. symmetry in Heq. revert Heq. apply sep_not_hex.
           vm_compute. lia.
      * rewrite not_elem_of_cons. split; [congruence | exact IH].
Qed.

(** Unescaping undoes escaping, whatever the field holds. *)
Lemma unescape_escape (s : string) :
  parse.unescape (parse.escape sep s) = Some s.
Proof.
  induction s as [|c s IH]; [reflexivity|].
  cbn [parse.escape]. destruct (parse.escaped sep c) eqn:Hesc.
  - cbn [parse.unescape]. rewrite Ascii.eqb_refl.
    destruct (hex_pair c) as (-> & -> & Hc). rewrite IH, Hc. reflexivity.
  - cbn [parse.unescape]. unfold parse.escaped in Hesc.
    apply orb_false_iff in Hesc as [_ ->]. rewrite IH. reflexivity.
Qed.

(** C6.  Decoding the encoded identifier gives the pair back, whatever the
    two fields contain (slashes, percent escapes, the separator itself):
    for every url and api version that are not empty,
    [ResourceID (ID (NewResourceID url apiVersion))] is
    [NewResourceID url apiVersion].  The separator is any character that is
    neither the percent sign nor a hexadecimal digit. *)
Theorem ResourceID_roundtrip (url apiVersion : string) :
  url ≠ EmptyString →
  apiVersion ≠ EmptyString →
  parse.ResourceID sep (parse.ID sep (parse.NewResourceID url apiVersion))
  = Ok (parse.NewResourceID url apiVersion).
Proof.
  intros Hurl Hapi. unfold parse.ResourceID, parse.ID.
  cbn [parse.Url parse.ApiVersion parse.NewResourceID].
  rewrite (split_first_app _ _ (escape_free url)), !unescape_escape.
  destruct url; [contradiction|]. destruct apiVersion; [contradiction|].
  reflexivity.
Qed.
End Identifier.

Lemma ResourceID_roundtrip_witness :
  parse.ResourceID "?" (parse.ID "?"
    (parse.NewResourceID "/providers/x?filter=a%20b/c%2Fd" "2021-04-01"))
  = Ok (parse.NewResourceID "/providers/x?filter=a%20b/c%2Fd" "2021-04-01").
Proof.
  apply (ResourceID_roundtrip "?" eq_refl
    "/providers/x?filter=a%20b/c%2Fd" "2021-04-01").
  - discriminate.
  - discriminate.
Defined.

(* ================================================================== *)
(** ** Trimming and case of text *)
(* ================================================================== *)

Section StringFacts.
Import strings.

Lemma append_String (a : ascii) (s t : string) :
  String a s +:+ t = String a (s +:+ t).
Proof. reflexivity. Qed.

Lemma append_empty (t : string) : EmptyString +:+ t = t.
Proof. reflexivity. Qed.

Lemma length_append (s t : string) :
  String.length (s +:+ t) = (String.length s + String.length t)%nat.
Proof.
  induction s as [|a s IH]; [reflexivity|].
  rewrite append_String. cbn [String.length]. rewrite IH. reflexivity.
Qed.

Lemma append_inj (s1 s2 t1 t2 : string) :
  String.length s1 = String.length s2 →
  s1 +:+ t1 = s2 +:+ t2 → s1 = s2 ∧ t1 = t2.
Proof.
  revert s2. induction s1 as [|a s1 IH]; intros [|b s2] Hlen Heq;
    try discriminate Hlen.
  - split; [reflexivity | exact Heq].
  - rewrite !append_String in Heq. injection Heq as -> Heq.
    destruct (IH s2) as [-> ->]; [cbn in Hlen; lia | exact Heq | split; reflexivity].
Qed.

Lemma strip_prefix_app (p r : string) : strip_prefix p (p +:+ r) = Some r.
Proof.
  induction p as [|a p IH]; [reflexivity|].
  rewrite append_String. cbn [strip_prefix]. rewrite Ascii.eqb_refl. exact IH.
Qed.

Lemma strip_prefix_Some (p s r : string) :
  strip_prefix p s = Some r → s = p +:+ r.
Proof.
  revert s. induction p as [|a p IH]; intros s Hs.
  - cbn in Hs. injection Hs as ->. reflexivity.
  - destruct s as [|b s]; [discriminate Hs|]. cbn [strip_prefix] in Hs.
    destruct (Ascii.eqb_spec a b) as [->|]; [|discriminate Hs].
    rewrite append_String, (IH s Hs). reflexivity.
Qed.

Lemma strip_suffix_app (front suf : string) :
  strip_suffix suf (front +:+ suf) = Some front.
Proof.
  induction front as [|a front IH].
  - rewrite append_empty.
    destruct suf; cbn [strip_suffix]; rewrite String.eqb_refl; reflexivity.
  - rewrite append_String. cbn [strip_suffix].
    destruct (String.eqb_spec (String a (front +:+ suf)) suf) as [Heq|_].
    + apply (f_equal String.length) in Heq. cbn [String.length] in Heq.
      rewrite length_append in Heq. lia.
    + rewrite IH. reflexivity.
Qed.

Lemma strip_suffix_Some (suf s front : string) :
  strip_suffix suf s = Some front → s = front +:+ suf.
Proof.
  revert front. induction s as [|a s IH]; intros front Hs.
  - cbn [strip_suffix] in Hs.
    destruct (String.eqb_spec EmptyString suf) as [<-|]; [|discriminate Hs].
    injection Hs as <-. reflexivity.
  - cbn [strip_suffix] in Hs.
    destruct (String.eqb_spec (String a s) suf) as [<-|].
    + injection Hs as <-. reflexivity.
    + destruct (strip_suffix suf s) as [f|]; [|discriminate Hs].
      injection Hs as <-. rewrite append_String, (IH f eq_refl). reflexivity.
Qed.

Lemma lower_lower (c : ascii) : lower (lower c) = lower c.
Proof. destruct c as [[] [] [] [] [] [] [] []]; vm_compute; reflexivity. Qed.

Lemma ToLower_ToLower (s : string) : ToLower (ToLower s) = ToLower s.
Proof.
  induction s as [|a s IH]; [reflexivity|].
  cbn [ToLower]. rewrite lower_lower, IH. reflexivity.
Qed.

Lemma ToLower_app (s t : string) : ToLower (s +:+ t) = ToLower s +:+ ToLower t.
Proof.
  induction s as [|a s IH]; [reflexivity|].
  rewrite append_String. cbn [ToLower]. rewrite IH. reflexivity.
Qed.

Lemma ToLower_empty (s : string) : ToLower s = EmptyString → s = EmptyString.
Proof. destruct s; [reflexivity | discriminate]. Qed.

Lemma length_ToLower (s : string) : String.length (ToLower s) = String.length s.
Proof. induction s as [|a s IH]; [reflexivity|]. cbn. rewrite IH. reflexivity. Qed.

Lemma EqualFold_ToLower (s t : string) : EqualFold s (ToLower t) = EqualFold s t.
Proof. unfold EqualFold. rewrite ToLower_ToLower. reflexivity. Qed.

(** Trimming leaves lower-case text lower-case. *)
Lemma TrimPrefix_lower (s p : string) :
  ToLower s = s → ToLower (TrimPrefix s p) = TrimPrefix s p.
Proof.
  unfold TrimPrefix. destruct (strip_prefix p s) as [r|] eqn:Hr; [|auto].
  intros Hs. apply strip_prefix_Some in Hr. subst s.
  rewrite ToLower_app in Hs.
  apply append_inj in Hs as [_ Hs]; [exact Hs | apply length_ToLower].
Qed.

Lemma TrimSuffix_lower (s suf : string) :
  ToLower s = s → ToLower (TrimSuffix s suf) = TrimSuffix s suf.
Proof.
  unfold TrimSuffix. destruct (strip_suffix suf s) as [r|] eqn:Hr; [|auto].
  intros Hs. apply strip_suffix_Some in Hr. subst s.
  rewrite ToLower_app in Hs.
  apply append_inj in Hs as [Hs _]; [exact Hs | apply length_ToLower].
Qed.

Lemma trimmed_full (host : string) :
  trimmed ("https://" +:+ host +:+ "/") = host.
Proof.
  unfold trimmed, TrimPrefix, TrimSuffix.
  rewrite strip_prefix_app, strip_suffix_app. reflexivity.
Qed.
End StringFacts.

(* ================================================================== *)
(** ** Environment names *)
(* ================================================================== *)

Section EnvironmentNames.
Import strings provider.

(** No name normalizes to the empty text. *)
Lemma normalizeEnvironmentName_not_empty (input : string) :
  normalizeEnvironmentName input ≠ EmptyString.
Proof.
  unfold normalizeEnvironmentName.
  destruct (TrimSuffix _ _); discriminate.
Qed.

(** X1.  A name of the form Azure, a middle part, Cloud, in any mix of upper
    and lower case, normalizes to the middle part in lower case; when the
    middle part is empty (AzureCloud) it normalizes to [public]. *)
Theorem normalizeEnvironmentName_shape (input middle : string) :
  isASCII input = true →
  ToLower input = "azure" +:+ middle +:+ "cloud" →
  normalizeEnvironmentName input =
    match middle with
    | EmptyString => "public"
    | _ => middle
    end.
Proof.
  intros _ Hlow. unfold normalizeEnvironmentName, TrimPrefix, TrimSuffix.
  rewrite Hlow, strip_prefix_app, strip_suffix_app. reflexivity.
Qed.

(** X2.  Normalizing does not see the case of the letters of its input, and
    its result is in lower case. *)
Theorem normalizeEnvironmentName_case (input : string) :
  isASCII input = true →
  normalizeEnvironmentName (ToLower input) = normalizeEnvironmentName input
  ∧ ToLower (normalizeEnvironmentName input) = normalizeEnvironmentName input.
Proof.
  intros _. unfold normalizeEnvironmentName. rewrite ToLower_ToLower.
  split; [reflexivity|].
  pose proof (TrimSuffix_lower (TrimPrefix (ToLower input) "azure") "cloud"
                (TrimPrefix_lower (ToLower input) "azure" (ToLower_ToLower input)))
    as Hlow.
  destruct (TrimSuffix _ _); [reflexivity | exact Hlow].
Qed.
End EnvironmentNames.

Lemma normalizeEnvironmentName_shape_witness :
  provider.normalizeEnvironmentName "AzureChinaCloud" = "china".
Proof.
  apply (normalizeEnvironmentName_shape "AzureChinaCloud" "china"); reflexivity.
Defined.

Lemma normalizeEnvironmentName_case_witness :
  provider.normalizeEnvironmentName (strings.ToLower "AzureUSGovernmentCloud")
  = provider.normalizeEnvironmentName "AzureUSGovernmentCloud"
  ∧ strings.ToLower (provider.normalizeEnvironmentName "AzureUSGovernmentCloud")
    = provider.normalizeEnvironmentName "AzureUSGovernmentCloud".
Proof.
  apply (normalizeEnvironmentName_case "AzureUSGovernmentCloud"). reflexivity.
Defined.

(* ================================================================== *)
(** ** Locating an environment *)
(* ================================================================== *)

Section Locate.
Import strings provider.

Lemma locate_first (endpoint name : string) (total : nat)
    (before after : list Environment) (env : Environment) :
  Forall (fun e => selected name total e = false) before →
  selected name total env = true →
  locate endpoint name total (before ++ env :: after)
  = Some (buildAzureCloudConfiguration (with_default endpoint env)).
Proof.
  intros Hbefore Henv.
  induction Hbefore as [|e before He _ IH]; cbn [app locate].
  - rewrite Henv. reflexivity.
  - rewrite He. exact IH.
Qed.

Lemma locate_none (endpoint name : string) (total : nat)
    (environments : list Environment) :
  Forall (fun e => selected name total e = false) environments →
  locate endpoint name total environments = None.
Proof.
  induction 1 as [|e l He _ IH]; cbn [locate]; [reflexivity|].
  rewrite He. exact IH.
Qed.

Lemma locate_Some (endpoint name : string) (total : nat)
    (environments : list Environment) (c : cloud.Configuration) :
  locate endpoint name total environments = Some c →
  ∃ env, env ∈ environments ∧ selected name total env = true
         ∧ c = buildAzureCloudConfiguration (with_default endpoint env).
Proof.
  induction environments as [|e l IH]; cbn [locate]; [discriminate|].
  destruct (selected name total e) eqn:He.
  - intros [= <-]. exists e. split; [left | split; [exact He | reflexivity]].
  - intros Hc. destruct (IH Hc) as (env & Hin & Hsel & ->).
    exists env. split; [right; exact Hin | split; [exact Hsel | reflexivity]].
Qed.

Lemma selected_ToLower (name : string) (total : nat) (env : Environment) :
  selected (ToLower name) total env = selected name total env.
Proof.
  unfold selected. rewrite EqualFold_ToLower. f_equal. f_equal.
  destruct name; reflexivity.
Qed.

Lemma locate_ToLower (endpoint name : string) (total : nat)
    (environments : list Environment) :
  locate endpoint (ToLower name) total environments
  = locate endpoint name total environments.
Proof.
  induction environments as [|e l IH]; cbn [locate]; [reflexivity|].
  rewrite selected_ToLower, IH. reflexivity.
Qed.

(** With no name asked for, an environment is selected by the number of
    environments alone: no normalized name is empty. *)
Lemma selected_empty_name (total : nat) (env : Environment) :
  selected EmptyString total env = Nat.eqb total 1.
Proof.
  unfold selected, EqualFold. cbn [ToLower String.eqb andb].
  destruct (String.eqb_spec (ToLower (normalizeEnvironmentName (Name env))) EmptyString)
    as [Heq|_]; [|reflexivity].
  apply ToLower_empty in Heq.
  contradiction (normalizeEnvironmentName_not_empty _ Heq).
Qed.
End Locate.

(* ================================================================== *)
(** ** The configuration of a custom metadata host *)
(* ================================================================== *)

Section FromEndpointFacts.
Import strings provider.
Context {Request Response : Type}.
Variable http_NewRequestWithContext : string → string → result string Request.
Variable client_Do : Request → result string Response.
Variable json_Decode : Response → result string (list Environment).

Local Abbreviation FromEndpoint_ :=
  (FromEndpoint http_NewRequestWithContext client_Do json_Decode).
Local Abbreviation delivers_ :=
  (delivers http_NewRequestWithContext client_Do json_Decode).

Lemma FromEndpoint_delivers (endpoint name : string)
    (environments : list Environment) :
  delivers_ endpoint environments →
  FromEndpoint_ endpoint name =
    match locate (trimmed endpoint) name (List.length environments) environments with
    | Some configuration => Ok configuration
    | None => Err (UnableToLocate name (trimmed endpoint))
    end.
Proof.
  intros (req & resp & Hreq & Hdo & Hdec).
  unfold FromEndpoint. fold (trimmed endpoint).
  rewrite Hreq, Hdo, Hdec. reflexivity.
Qed.

Lemma FromEndpoint_Ok (endpoint name : string) (c : cloud.Configuration) :
  FromEndpoint_ endpoint name = Ok c →
  ∃ environments env,
    delivers_ endpoint environments
    ∧ env ∈ environments
    ∧ selected name (List.length environments) env = true
    ∧ c = buildAzureCloudConfiguration (with_default (trimmed endpoint) env).
Proof.
  unfold FromEndpoint. fold (trimmed endpoint).
  destruct (http_NewRequestWithContext _ _) as [req|] eqn:Hreq; [|discriminate].
  destruct (client_Do req) as [resp|] eqn:Hdo; [|discriminate].
  destruct (json_Decode resp) as [environments|] eqn:Hdec; [|discriminate].
  destruct (locate _ _ _ _) as [c'|] eqn:Hloc; [|discriminate].
  intros [= <-]. destruct (locate_Some _ _ _ _ _ Hloc) as (env & Hin & Hsel & ->).
  exists environments, env. split; [|auto].
  exists req, resp. auto.
Qed.

(** X3.  The endpoint may be given bare or with the scheme in front and a
    slash behind: for a host that carries neither, [FromEndpoint] does the
    same with both forms (the same address is asked, the same answer is
    returned). *)
Theorem FromEndpoint_endpoint_forms (host name : string) :
  TrimPrefix host "https://" = host →
  TrimSuffix host "/" = host →
  FromEndpoint_ ("https://" +:+ host +:+ "/") name = FromEndpoint_ host name.
Proof.
  intros Hpre Hsuf. unfold FromEndpoint.
  fold (trimmed ("https://" +:+ host +:+ "/")). rewrite trimmed_full.
  rewrite Hpre, Hsuf. reflexivity.
Qed.

(** X4.  A configuration that [FromEndpoint] returns has the resource
    manager as its only service, with the same text as endpoint and as
    audience, and that text is not empty. *)
Theorem FromEndpoint_resource_manager (endpoint name : string)
    (c : cloud.Configuration) :
  FromEndpoint_ endpoint name = Ok c →
  ∃ service,
    cloud.Services c = {[ cloud.ResourceManager := service ]}
    ∧ cloud.Audience service = cloud.Endpoint service
    ∧ cloud.Endpoint service ≠ EmptyString.
Proof.
  intros Hc. destruct (FromEndpoint_Ok _ _ _ Hc) as (envs & env & _ & _ & _ & ->).
  eexists. split; [reflexivity|]. split; [reflexivity|].
  cbn [cloud.Endpoint]. unfold with_default.
  destruct (ResourceManager env) eqn:Hrm.
  - cbn [ResourceManager Set_ResourceManager]. discriminate.
  - rewrite Hrm. discriminate.
Qed.

(** X5.  With no environment name given, [FromEndpoint] succeeds exactly
    when the metadata service lists one environment, which it then returns
    whatever its name; with none or several listed it fails with the
    unable-to-locate error. *)
Theorem FromEndpoint_empty_name (endpoint : string)
    (environments : list Environment) :
  delivers_ endpoint environments →
  match environments with
  | [env] =>
      FromEndpoint_ endpoint EmptyString
      = Ok (buildAzureCloudConfiguration (with_default (trimmed endpoint) env))
  | _ =>
      FromEndpoint_ endpoint EmptyString
      = Err (UnableToLocate EmptyString (trimmed endpoint))
  end.
Proof.
  intros Hdel. rewrite (FromEndpoint_delivers _ _ _ Hdel).
  destruct environments as [|env [|env' rest]].
  - reflexivity.
  - cbn [locate List.length]. rewrite selected_empty_name. reflexivity.
  - rewrite locate_none; [reflexivity|].
    apply Forall_forall. intros e _. apply selected_empty_name.
Qed.

(** X6.  For an ASCII name and ASCII names of the environments examined: of
    the environments listed, the first one that is selected decides, the
    configuration is built from it (with the endpoint as its resource
    manager when it names none), whatever comes after it in the list. *)
Theorem FromEndpoint_first_match (endpoint name : string)
    (before after : list Environment) (env : Environment) :
  isASCII name = true →
  ascii_names (before ++ [env]) →
  delivers_ endpoint (before ++ env :: after) →
  Forall (fun e => selected name (List.length (before ++ env :: after)) e = false)
         before →
  selected name (List.length (before ++ env :: after)) env = true →
  FromEndpoint_ endpoint name
  = Ok (buildAzureCloudConfiguration (with_default (trimmed endpoint) env)).
Proof.
  intros _ _ Hdel Hbefore Henv. rewrite (FromEndpoint_delivers _ _ _ Hdel).
  rewrite (locate_first _ _ _ _ _ _ Hbefore Henv). reflexivity.
Qed.

(** X7.  For an ASCII name and ASCII names of the environments: when a name
    is given and no listed environment normalizes to it (up to case),
    [FromEndpoint] fails with the unable-to-locate error, which carries the
    name as given and the endpoint without scheme and slash. *)
Theorem FromEndpoint_no_match (endpoint name : string)
    (environments : list Environment) :
  isASCII name = true →
  ascii_names environments →
  delivers_ endpoint environments →
  name ≠ EmptyString →
  Forall (fun e => EqualFold (normalizeEnvironmentName (Name e)) name = false)
         environments →
  FromEndpoint_ endpoint name = Err (UnableToLocate name (trimmed endpoint)).
Proof.
  intros _ _ Hdel Hname Hnone. rewrite (FromEndpoint_delivers _ _ _ Hdel).
  rewrite locate_none; [reflexivity|].
  eapply Forall_impl; [exact Hnone|]. intros e He. unfold selected.
  rewrite He. destruct name; [contradiction|reflexivity].
Qed.

(** X8.  The environment name is matched without regard to case: a lookup
    succeeds with a configuration for a name exactly when it does for the
    name in lower case. *)
Theorem FromEndpoint_name_case (endpoint name : string) (c : cloud.Configuration) :
  isASCII name = true →
  FromEndpoint_ endpoint (ToLower name) = Ok c ↔ FromEndpoint_ endpoint name = Ok c.
Proof.
  intros _. unfold FromEndpoint.
  destruct (http_NewRequestWithContext _ _) as [req|]; [|tauto].
  destruct (client_Do req) as [resp|]; [|tauto].
  destruct (json_Decode resp) as [environments|]; [|tauto].
  rewrite locate_ToLower.
  destruct (locate _ _ _ _); [tauto|]. split; discriminate.
Qed.

(** X9.  For an ASCII name and ASCII names of the environments examined:
    when the endpoint is given with scheme and closing slash and the
    environment found names no resource manager, the resource manager of the
    configuration is the endpoint as it was given. *)
Theorem FromEndpoint_default_endpoint (host name : string)
    (before after : list Environment) (env : Environment) :
  isASCII name = true →
  ascii_names (before ++ [env]) →
  delivers_ ("https://" +:+ host +:+ "/") (before ++ env :: after) →
  Forall (fun e => selected name (List.length (before ++ env :: after)) e = false)
         before →
  selected name (List.length (before ++ env :: after)) env = true →
  ResourceManager env = EmptyString →
  ∃ c, FromEndpoint_ ("https://" +:+ host +:+ "/") name = Ok c
       ∧ cloud.Services c !! cloud.ResourceManager
         = Some (cloud.mkServiceConfiguration ("https://" +:+ host +:+ "/")
                                              ("https://" +:+ host +:+ "/")).
Proof.
  intros _ _ Hdel Hbefore Henv Hrm.
  rewrite (FromEndpoint_delivers _ _ _ Hdel).
  rewrite (locate_first _ _ _ _ _ _ Hbefore Henv).
  eexists. split; [reflexivity|].
  unfold with_default. rewrite Hrm, trimmed_full.
  cbn [buildAzureCloudConfiguration cloud.Services ResourceManager Set_ResourceManager].
  apply lookup_singleton_eq.
Qed.
End FromEndpointFacts.

Lemma names_ascii (environments : list provider.Environment) :
  forallb (fun e => strings.isASCII (provider.Name e)) environments = true →
  ascii_names environments.
Proof.
  intros Hall. apply Forall_forall. intros e He.
  apply list_elem_of_In in He.
  exact (proj1 (forallb_forall _ environments) Hall e He).
Defined.

Lemma metadata_delivers (environments : list provider.Environment) :
  delivers metadata.NewRequest (metadata.Do environments) metadata.Decode
    ("https://" +:+ metadata.host +:+ "/") environments.
Proof.
  exists (provider.metadataUri metadata.host), environments.
  repeat split; vm_compute; reflexivity.
Defined.

Lemma FromEndpoint_endpoint_forms_witness :
  metadata.lookup [metadata.china; metadata.public]
    ("https://" +:+ metadata.host +:+ "/") "China"
  = metadata.lookup [metadata.china; metadata.public] metadata.host "China".
Proof.
  apply (FromEndpoint_endpoint_forms metadata.NewRequest
           (metadata.Do [metadata.china; metadata.public]) metadata.Decode
           metadata.host "China"); reflexivity.
Defined.

Lemma FromEndpoint_resource_manager_witness :
  ∃ service,
    cloud.Services (provider.buildAzureCloudConfiguration metadata.china)
      = {[ cloud.ResourceManager := service ]}
    ∧ cloud.Audience service = cloud.Endpoint service
    ∧ cloud.Endpoint service ≠ EmptyString.
Proof.
  apply (FromEndpoint_resource_manager metadata.NewRequest
           (metadata.Do [metadata.china; metadata.public]) metadata.Decode
           metadata.host "china").
  vm_compute. reflexivity.
Defined.

Lemma FromEndpoint_empty_name_witness :
  metadata.lookup [metadata.china] ("https://" +:+ metadata.host +:+ "/") EmptyString
  = Ok (provider.buildAzureCloudConfiguration
          (with_default (trimmed ("https://" +:+ metadata.host +:+ "/")) metadata.china)).
Proof.
  exact (FromEndpoint_empty_name metadata.NewRequest
           (metadata.Do [metadata.china]) metadata.Decode
           ("https://" +:+ metadata.host +:+ "/") [metadata.china]
           (metadata_delivers [metadata.china])).
Defined.

Lemma FromEndpoint_first_match_witness :
  metadata.lookup [metadata.china; metadata.public]
    ("https://" +:+ metadata.host +:+ "/") "Public"
  = Ok (provider.buildAzureCloudConfiguration
          (with_default (trimmed ("https://" +:+ metadata.host +:+ "/")) metadata.public)).
Proof.
  apply (FromEndpoint_first_match metadata.NewRequest
           (metadata.Do [metadata.china; metadata.public]) metadata.Decode
           ("https://" +:+ metadata.host +:+ "/") "Public"
           [metadata.china] [] metadata.public eq_refl
           (names_ascii [metadata.china; metadata.public] eq_refl)
           (metadata_delivers [metadata.china; metadata.public])).
  - repeat constructor.
  - reflexivity.
Defined.

Lemma FromEndpoint_no_match_witness :
  metadata.lookup [metadata.china; metadata.public]
    ("https://" +:+ metadata.host +:+ "/") "Germany"
  = Err (provider.UnableToLocate "Germany"
           (trimmed ("https://" +:+ metadata.host +:+ "/"))).
Proof.
  apply (FromEndpoint_no_match metadata.NewRequest
           (metadata.Do [metadata.china; metadata.public]) metadata.Decode
           ("https://" +:+ metadata.host +:+ "/") "Germany"
           [metadata.china; metadata.public] eq_refl
           (names_ascii [metadata.china; metadata.public] eq_refl)
           (metadata_delivers [metadata.china; metadata.public])).
  - discriminate.
  - repeat constructor.
Defined.

Lemma FromEndpoint_name_case_witness :
  metadata.lookup [metadata.china; metadata.public] metadata.host
    (strings.ToLower "CHINA")
  = Ok (provider.buildAzureCloudConfiguration metadata.china)
  ↔ metadata.lookup [metadata.china; metadata.public] metadata.host "CHINA"
    = Ok (provider.buildAzureCloudConfiguration metadata.china).
Proof.
  apply (FromEndpoint_name_case metadata.NewRequest
           (metadata.Do [metadata.china; metadata.public]) metadata.Decode
           metadata.host "CHINA"). reflexivity.
Defined.

Lemma FromEndpoint_default_endpoint_witness :
  ∃ c, metadata.lookup [metadata.china; metadata.public]
         ("https://" +:+ metadata.host +:+ "/") "public" = Ok c
       ∧ cloud.Services c !! cloud.ResourceManager
         = Some (cloud.mkServiceConfiguration
                   ("https://" +:+ metadata.host +:+ "/")
                   ("https://" +:+ metadata.host +:+ "/")).
Proof.
  apply (FromEndpoint_default_endpoint metadata.NewRequest
           (metadata.Do [metadata.china; metadata.public]) metadata.Decode
           metadata.host "public" [metadata.china] [] metadata.public eq_refl
           (names_ascii [metadata.china; metadata.public] eq_refl)
           (metadata_delivers [metadata.china; metadata.public])).
  - repeat constructor.
  - reflexivity.
  - reflexivity.
Defined.

(* ================================================================== *)
(** ** What the handlers send and what they leave alone *)
(* ================================================================== *)

Section HandlerFacts.
Import services utils.
Context {Remote : Type} (env : Env Remote).

Local Ltac run_read :=
  unfold resourceAzureGenericResourceRead, bind, getData, request, modify, ret, fail;
  cbn [w_data w_remote w_log].

Lemma Read_log_exact (w : World Remote) :
  w_log (resourceAzureGenericResourceRead env w).2 =
    w_log w ++
    match parse.ResourceID (separator env) (Id (w_data w)) with
    | Ok id =>
        [(CallGet (parse.Url id) (parse.ApiVersion id),
          (client_Get env (w_remote w) (parse.Url id) (parse.ApiVersion id)).1)]
    | Err _ => []
    end.
Proof.
  run_read.
  destruct (parse.ResourceID _ _) as [id|e]; [|symmetry; apply app_nil_r].
  destruct (client_Get _ _ _ _) as [rep rem']. cbn [fst].
  destruct (reply_err rep); [case_bool_decide; reflexivity|].
  destruct (json_Unmarshal _ _); [|case_bool_decide];
    try reflexivity; destruct (json_Marshal _ _); reflexivity.
Qed.

(** What a read never touches, and the two values the identifier can have
    after it. *)
Lemma Read_configuration (w : World Remote) :
  let d := w_data w in
  let d' := w_data (resourceAzureGenericResourceRead env w).2 in
  paths d' = paths d
  ∧ create_method d' = create_method d
  ∧ update_method d' = update_method d
  ∧ IsNewResource d' = IsNewResource d
  ∧ (Id d' = Id d ∨ Id d' = EmptyString).
Proof.
  cbn zeta. run_read.
  destruct (parse.ResourceID _ _) as [id|e]; [|cbn; auto 6].
  destruct (client_Get _ _ _ _) as [rep rem']. cbn [fst snd w_data].
  destruct (reply_err rep); [case_bool_decide; cbn; auto 6|].
  destruct (json_Unmarshal _ _); [|case_bool_decide];
    try (cbn; auto 6); destruct (json_Marshal _ _); cbn; auto 6.
Qed.

(** X10.  A read issues one request, the [Get] at the url and api version
    that the stored identifier decodes to, and nothing else; when the
    identifier does not decode it issues none. *)
Theorem Read_issues_one_get (w : World Remote) :
  issued (resourceAzureGenericResourceRead env) w =
    match parse.ResourceID (separator env) (Id (w_data w)) with
    | Ok id =>
        [(CallGet (parse.Url id) (parse.ApiVersion id),
          (client_Get env (w_remote w) (parse.Url id) (parse.ApiVersion id)).1)]
    | Err _ => []
    end.
Proof. unfold issued. rewrite Read_log_exact. apply drop_app_length. Qed.

(** X11.  A read never changes the paths, the two methods or the new-resource
    mark of the record, and it leaves the identifier as it was or empties it.
    When it returns an error, the identifier, body, output, tags, location
    and identity are what they were (the url and the api version may already
    have been rewritten from the identifier). *)
Theorem Read_keeps_configuration (w : World Remote) :
  let d := w_data w in
  let d' := w_data (resourceAzureGenericResourceRead env w).2 in
  paths d' = paths d
  ∧ create_method d' = create_method d
  ∧ update_method d' = update_method d
  ∧ IsNewResource d' = IsNewResource d
  ∧ (Id d' = Id d ∨ Id d' = EmptyString)
  ∧ (∀ e, (resourceAzureGenericResourceRead env w).1 = Err e →
          Id d' = Id d ∧ body d' = body d ∧ output d' = output d
          ∧ tags d' = tags d ∧ location d' = location d
          ∧ identity d' = identity d).
Proof.
  cbn zeta.
  destruct (Read_configuration w) as (Hp & Hc & Hu & Hn & Hi).
  repeat (split; [assumption|]). clear.
  run_read.
  destruct (parse.ResourceID _ _) as [id|e]; [|cbn; auto 7].
  destruct (client_Get _ _ _ _) as [rep rem']. cbn [fst snd w_data].
  destruct (reply_err rep);
    [case_bool_decide; cbn; [discriminate | auto 7]|].
  destruct (json_Unmarshal _ _); [|case_bool_decide];
    try (cbn; auto 7; discriminate);
    destruct (json_Marshal _ _); cbn; auto 7; discriminate.
Qed.

(** X12.  A delete never changes the record (the identifier included); it
    issues one request, the [Delete] at the decoded url and api version, or
    none when the identifier does not decode; and it returns without error
    exactly when the identifier decodes and the remote reply has no
    error. *)
Theorem Delete_keeps_record (w : World Remote) :
  w_data (resourceAzureGenericResourceDelete env w).2 = w_data w
  ∧ issued (resourceAzureGenericResourceDelete env) w =
      match parse.ResourceID (separator env) (Id (w_data w)) with
      | Ok id =>
          [(CallDelete (parse.Url id) (parse.ApiVersion id),
            (client_Delete env (w_remote w) (parse.Url id) (parse.ApiVersion id)).1)]
      | Err _ => []
      end
  ∧ ((resourceAzureGenericResourceDelete env w).1 = Ok tt ↔
     ∃ id, parse.ResourceID (separator env) (Id (w_data w)) = Ok id
           ∧ reply_err (client_Delete env (w_remote w) (parse.Url id)
                          (parse.ApiVersion id)).1 = None).
Proof.
  unfold issued, resourceAzureGenericResourceDelete, bind, getData, request, ret, fail.
  cbn [w_data w_remote w_log].
  destruct (parse.ResourceID _ _) as [id|e].
  - destruct (client_Delete _ _ _ _) as [rep rem'] eqn:Hdel.
    cbn [fst snd w_data w_log].
    destruct (reply_err rep) eqn:Herr; cbn [fst snd w_data w_log];
      (split; [reflexivity|]); (split; [apply drop_app_length|]).
    + split; [discriminate|]. intros (id' & [= <-] & Hnone).
      rewrite Hdel in Hnone. cbn [fst] in Hnone. congruence.
    + split; [|reflexivity]. intros _. exists id. rewrite Hdel. auto.
  - cbn [fst snd w_data w_log]. split; [reflexivity|].
    split; [apply drop_all|]. split; [discriminate|].
    intros (id & Hid & _). discriminate.
Qed.

(** X13.  The requests of a create or update, in order: the [Get] of the
    existence check when the resource is new and none otherwise; then nothing
    more, or one [CreateUpdate] at the url and api version of the record with
    the create method for a new resource and the update method otherwise;
    and after a [CreateUpdate] that succeeded, at most one [Get] of the
    read-back.  No [Delete] and no second [CreateUpdate] is ever sent. *)
Theorem CreateUpdate_trace (w : World Remote) :
  let d := w_data w in
  ∃ tail,
    issued (resourceAzureGenericResourceCreateUpdate env) w =
      (if IsNewResource d
       then [(CallGet (url d) (api_version d),
              (client_Get env (w_remote w) (url d) (api_version d)).1)]
       else []) ++ tail
    ∧ (tail = []
       ∨ ∃ b rep,
           tail = [(CallCreateUpdate (url d) (api_version d) b (method_of d), rep)]
           ∨ (reply_err rep = None
              ∧ ∃ u a r,
                  tail = [(CallCreateUpdate (url d) (api_version d) b (method_of d), rep);
                          (CallGet u a, r)])).
Proof.
  cbn zeta.
  destruct (CreateUpdate_cases env w)
    as [(e & _ & Heq) | (b & rep & rem2 & v & _ & _ & Heq)]; cbn zeta in Heq.
  - exists []. split; [|left; reflexivity].
    apply issued_app. rewrite Heq, app_nil_r. cbn [snd]. apply after_guard_log.
  - destruct (reply_err rep) as [err|] eqn:Herr.
    + eexists. split.
      * apply issued_app. rewrite Heq. cbn [snd w_log].
        rewrite after_guard_log, <- app_assoc. reflexivity.
      * right. exists b, rep. left. reflexivity.
    + match type of Heq with _ = resourceAzureGenericResourceRead env ?w0 =>
        pose proof (Read_log_exact w0) as Hlog end.
      rewrite <- Heq in Hlog. cbn [w_log w_data w_remote] in Hlog.
      rewrite after_guard_log, <- !app_assoc in Hlog.
      eexists. split; [apply issued_app; exact Hlog|].
      right. exists b, rep.
      destruct (parse.ResourceID _ _) as [id|].
      * right. split; [exact Herr|]. eexists _, _, _. reflexivity.
      * left. reflexivity.
Qed.

(** X14.  When the [Get] of the existence check fails with a status other
    than 404, the create fails with the checking-presence error that carries
    the identifier and the cause; the [Get] is the only request issued and
    the record is unchanged. *)
Theorem CreateUpdate_check_failure (w : World Remote) (rep : Reply)
    (rem' : Remote) (err : string) :
  IsNewResource (w_data w) = true →
  client_Get env (w_remote w) (url (w_data w)) (api_version (w_data w)) = (rep, rem') →
  reply_err rep = Some err →
  StatusCode rep ≠ StatusNotFound →
  resourceAzureGenericResourceCreateUpdate env w =
    (Err (RemoteError CheckingPresence
            (parse.NewResourceID (url (w_data w)) (api_version (w_data w))) err),
     mkWorld (w_data w) rem'
       (w_log w ++ [(CallGet (url (w_data w)) (api_version (w_data w)), rep)])).
Proof.
  intros Hnew Hget Herr Hst.
  unfold resourceAzureGenericResourceCreateUpdate, bind, getData, request, modify, ret, fail.
  cbn [w_data w_remote w_log parse.Url parse.ApiVersion parse.NewResourceID].
  rewrite Hnew. cbn [w_data w_remote w_log]. rewrite Hget.
  cbn [w_data w_remote w_log]. rewrite Herr, (bool_decide_true _ Hst).
  reflexivity.
Qed.

(** X15.  When a create or update returns the error of the existence check,
    of decoding the body, of expanding the identity or of the remote
    [CreateUpdate] call, the whole record is what it was; and unless the
    error is that of the remote [CreateUpdate] call, no request but a [Get]
    was issued. *)
Theorem CreateUpdate_failure_keeps_record (w : World Remote) (e : error) :
  (resourceAzureGenericResourceCreateUpdate env w).1 = Err e →
  before_commit e →
  w_data (resourceAzureGenericResourceCreateUpdate env w).2 = w_data w
  ∧ ((∀ id cause, e ≠ RemoteError CreatingUpdating id cause) →
     Forall is_get (issued (resourceAzureGenericResourceCreateUpdate env) w)).
Proof.
  intros He Hbefore.
  destruct (CreateUpdate_cases env w)
    as [(e' & _ & Heq) | (b & rep & rem2 & v & Hv & _ & Heq)]; cbn zeta in Heq.
  - split; [rewrite Heq; apply after_guard_data|]. intros _.
    rewrite (issued_app _ w _ (eq_trans (f_equal (fun r => w_log r.2) Heq)
                                 (after_guard_log env w))).
    destruct (IsNewResource (w_data w)); repeat constructor.
  - destruct (reply_err rep) as [err|] eqn:Herr.
    + split; [rewrite Heq; reflexivity|]. intros Hne. exfalso.
      rewrite Heq in He. injection He as <-. exact (Hne _ _ eq_refl).
    + exfalso. rewrite Heq in He. exact (Read_error env _ e v He Hv Hbefore).
Qed.

(** X16.  When a create or update returns without error, a [CreateUpdate]
    request was answered without error, and the identifier of the record is
    the encoding of its url and api version, or empty (the read-back got a
    404 and removed the resource from the state). *)
Theorem CreateUpdate_success_identifier (w : World Remote) :
  (resourceAzureGenericResourceCreateUpdate env w).1 = Ok tt →
  let d := w_data w in
  let d' := w_data (resourceAzureGenericResourceCreateUpdate env w).2 in
  (Id d' = parse.ID (separator env) (parse.NewResourceID (url d) (api_version d))
   ∨ Id d' = EmptyString)
  ∧ ∃ b rep,
      (CallCreateUpdate (url d) (api_version d) b (method_of d), rep)
        ∈ issued (resourceAzureGenericResourceCreateUpdate env) w
      ∧ reply_err rep = None.
Proof.
  intros Hok. cbn zeta.
  destruct (CreateUpdate_cases env w)
    as [(e' & _ & Heq) | (b & rep & rem2 & v & Hv & _ & Heq)]; cbn zeta in Heq.
  - rewrite Heq in Hok. discriminate Hok.
  - destruct (reply_err rep) as [err|] eqn:Herr;
      [rewrite Heq in Hok; discriminate Hok|].
    split.
    + match type of Heq with _ = resourceAzureGenericResourceRead env ?w0 =>
        pose proof (Read_configuration w0) as (_ & _ & _ & _ & Hid) end.
      rewrite <- Heq in Hid. exact Hid.
    + exists b, rep. split; [|exact Herr].
      match type of Heq with _ = resourceAzureGenericResourceRead env ?w0 =>
        pose proof (Read_log_exact w0) as Hlog end.
      rewrite <- Heq in Hlog. cbn [w_log] in Hlog.
      rewrite after_guard_log, <- !app_assoc in Hlog.
      rewrite (issued_app _ w _ Hlog).
      apply elem_of_app. right. apply elem_of_app. left.
      apply list_elem_of_singleton. reflexivity.
Qed.

(** X17.  A create or update never changes the paths, the two methods or the
    new-resource mark of the record, whatever its outcome. *)
Theorem CreateUpdate_keeps_configuration (w : World Remote) :
  let d := w_data w in
  let d' := w_data (resourceAzureGenericResourceCreateUpdate env w).2 in
  paths d' = paths d
  ∧ create_method d' = create_method d
  ∧ update_method d' = update_method d
  ∧ IsNewResource d' = IsNewResource d.
Proof.
  cbn zeta.
  destruct (CreateUpdate_cases env w)
    as [(e' & _ & Heq) | (b & rep & rem2 & v & Hv & _ & Heq)]; cbn zeta in Heq.
  - rewrite Heq. cbn [snd]. rewrite after_guard_data. auto.
  - destruct (reply_err rep) as [err|] eqn:Herr; [rewrite Heq; cbn; auto|].
    match type of Heq with _ = resourceAzureGenericResourceRead env ?w0 =>
      pose proof (Read_configuration w0) as (Hp & Hc & Hu & Hn & _) end.
    rewrite <- Heq in Hp, Hc, Hu, Hn. auto.
Qed.

(** X18.  When the remote [CreateUpdate] call succeeds and the identifier
    written decodes back to the url and api version of the record, the
    read-back asks the remote service at that same url and api version, in
    the state the [CreateUpdate] call left it in: the requests after the
    existence check are the [CreateUpdate] with the composed body and that
    [Get], and no other. *)
Theorem CreateUpdate_reads_back (w : World Remote) (desired : json)
    (idFrag : option json) :
  let d := w_data w in
  let id := parse.NewResourceID (url d) (api_version d) in
  let composed := spec.ComposedBody desired (tags_fragment d)
                    (location_fragment d) idFrag in
  let sent := client_CreateUpdate env (w_remote (after_guard env w))
                (url d) (api_version d) composed (method_of d) in
  json_Unmarshal env (body d) = Ok desired →
  identity_fragment env d = Ok idFrag →
  guard_passes env w →
  reply_err sent.1 = None →
  parse.ResourceID (separator env) (parse.ID (separator env) id) = Ok id →
  w_log (resourceAzureGenericResourceCreateUpdate env w).2 =
    w_log (after_guard env w) ++
    [(CallCreateUpdate (url d) (api_version d) composed (method_of d), sent.1);
     (CallGet (url d) (api_version d),
      (client_Get env sent.2 (url d) (api_version d)).1)].
Proof.
  cbn zeta. intros Hdes Hidf Hguard Hsent Hround.
  pose proof (CreateUpdate_run env w desired idFrag Hdes Hidf Hguard) as Hrun.
  cbn zeta in Hrun. rewrite Hsent in Hrun. rewrite Hrun, Read_log_exact.
  cbn [w_data w_remote w_log Id SetId]. rewrite Hround.
  cbn [parse.Url parse.ApiVersion parse.NewResourceID].
  rewrite <- app_assoc. reflexivity.
Qed.
End HandlerFacts.

Lemma CreateUpdate_check_failure_witness :
  (services.resourceAzureGenericResourceCreateUpdate
     (fixture.envDown [fixture.desired1])
     (fixture.world (fixture.blank true (fixture.marshal fixture.desired1)) ∅)).1
  = Err (services.RemoteError services.CheckingPresence fixture.sampleId
           "ServiceUnavailable").
Proof.
  refine (f_equal fst (CreateUpdate_check_failure
    (fixture.envDown [fixture.desired1])
    (fixture.world (fixture.blank true (fixture.marshal fixture.desired1)) ∅)
    fixture.unavailable ∅ "ServiceUnavailable" _ _ _ _)).
  - reflexivity.
  - reflexivity.
  - reflexivity.
  - discriminate.
Defined.

Lemma CreateUpdate_failure_keeps_record_witness :
  services.w_data
    (services.resourceAzureGenericResourceCreateUpdate (fixture.env [JNumber 5])
       (fixture.world (fixture.blank false (fixture.marshal (JNumber 5))) ∅)).2
  = fixture.blank false (fixture.marshal (JNumber 5)).
Proof.
  refine (proj1 (CreateUpdate_failure_keeps_record (fixture.env [JNumber 5])
    (fixture.world (fixture.blank false (fixture.marshal (JNumber 5))) ∅)
    (services.RemoteError services.CreatingUpdating fixture.sampleId "BadRequest")
    _ _)).
  - vm_compute. reflexivity.
  - exact I.
Defined.

Lemma CreateUpdate_success_identifier_witness :
  services.Id (services.w_data
    (services.resourceAzureGenericResourceCreateUpdate (fixture.env [fixture.desired1])
       (fixture.world (fixture.blank true (fixture.marshal fixture.desired1)) ∅)).2)
  = parse.ID "?" fixture.sampleId
  ∨ services.Id (services.w_data
      (services.resourceAzureGenericResourceCreateUpdate (fixture.env [fixture.desired1])
         (fixture.world (fixture.blank true (fixture.marshal fixture.desired1)) ∅)).2)
    = EmptyString.
Proof.
  refine (proj1 (CreateUpdate_success_identifier (fixture.env [fixture.desired1])
    (fixture.world (fixture.blank true (fixture.marshal fixture.desired1)) ∅) _)).
  vm_compute. reflexivity.
Defined.

Lemma CreateUpdate_reads_back_witness :
  List.length (services.w_log
    (services.resourceAzureGenericResourceCreateUpdate (fixture.env [fixture.desired1])
       (fixture.world (fixture.blank true (fixture.marshal fixture.desired1)) ∅)).2)
  = 3%nat.
Proof.
  pose proof (CreateUpdate_reads_back (fixture.env [fixture.desired1])
    (fixture.world (fixture.blank true (fixture.marshal fixture.desired1)) ∅)
    fixture.desired1 None) as Hlog.
  cbn zeta in Hlog. rewrite Hlog.
  - reflexivity.
  - vm_compute. reflexivity.
  - reflexivity.
  - intros _. split; [right; reflexivity | reflexivity].
  - vm_compute. reflexivity.
  - vm_compute. reflexivity.
Defined.

Section ReadAttributes.
Import services utils.
Context {Remote : Type} (env : Env Remote).

(** X19.  A read that finds the resource rewrites the url and the api
    version of the record from the stored identifier (so an imported
    resource, which has the identifier only, gets both), keeps the
    identifier, and takes tags, location and identity from the remote
    document. *)
Theorem Read_restores_attributes (w : World Remote) (id : parse.ResourceId)
    (rep : Reply) (rem' : Remote) (requestBody : json) (text : string) :
  parse.ResourceID (separator env) (Id (w_data w)) = Ok id →
  client_Get env (w_remote w) (parse.Url id) (parse.ApiVersion id) = (rep, rem') →
  reply_err rep = None →
  read_desired env (body (w_data w)) (reply_body rep) = Ok requestBody →
  json_Marshal env (GetUpdatedJson requestBody (reply_body rep)) = Ok text →
  let d' := w_data (resourceAzureGenericResourceRead env w).2 in
  url d' = parse.Url id
  ∧ api_version d' = parse.ApiVersion id
  ∧ Id d' = Id (w_data w)
  ∧ tags d' = azure_FlattenTags env (reply_body rep)
  ∧ location d' = azure_FlattenLocation env (reply_body rep)
  ∧ identity d' = azure_FlattenIdentity env (reply_body rep)
  ∧ w_remote (resourceAzureGenericResourceRead env w).2 = rem'.
Proof.
  intros Hid Hget Herr Hdes Hmar. cbn zeta.
  rewrite (Read_success env w id rep rem' requestBody text) by assumption.
  cbn. auto 8.
Qed.
End ReadAttributes.

Lemma Read_restores_attributes_witness :
  services.url (services.w_data (services.resourceAzureGenericResourceRead
     (fixture.env [])
     (fixture.world
        (services.SetId (parse.ID "?" fixture.sampleId)
           (services.mkResourceData EmptyString false EmptyString EmptyString
              EmptyString [] EmptyString "PUT" "PUT" [] EmptyString ∅))
        {[ fixture.sampleUrl := fixture.remote2 ]})).2)
  = fixture.sampleUrl.
Proof.
  refine (proj1 (Read_restores_attributes (fixture.env [])
    (fixture.world
        (services.SetId (parse.ID "?" fixture.sampleId)
           (services.mkResourceData EmptyString false EmptyString EmptyString
              EmptyString [] EmptyString "PUT" "PUT" [] EmptyString ∅))
        {[ fixture.sampleUrl := fixture.remote2 ]})
    fixture.sampleId (services.mkReply fixture.remote2 200 None)
    {[ fixture.sampleUrl := fixture.remote2 ]}
    fixture.stored2 (fixture.marshal fixture.stored2) _ _ _ _ _));
    vm_compute; reflexivity.
Defined.

Lemma Read_not_found_witness :
  services.resourceAzureGenericResourceRead (fixture.env [])
    (fixture.world (fixture.managed EmptyString) ∅)
  = (Ok tt,
     services.mkWorld (services.SetId EmptyString (fixture.managed EmptyString)) ∅
       [(services.CallGet fixture.sampleUrl fixture.sampleApi, fixture.notFound)]).
Proof.
  refine (Read_not_found (fixture.env [])
    (fixture.world (fixture.managed EmptyString) ∅)
    fixture.sampleId fixture.notFound ∅ "ResourceNotFound" _ _ _ _);
    vm_compute; reflexivity.
Defined.

Lemma Read_remote_error_witness :
  services.resourceAzureGenericResourceRead (fixture.envDown [])
    (fixture.world (fixture.managed EmptyString) ∅)
  = (Err (services.RemoteError services.Reading fixture.sampleId "ServiceUnavailable"),
     services.mkWorld (fixture.managed EmptyString) ∅
       [(services.CallGet fixture.sampleUrl fixture.sampleApi, fixture.unavailable)]).
Proof.
  refine (Read_remote_error (fixture.envDown [])
    (fixture.world (fixture.managed EmptyString) ∅)
    fixture.sampleId fixture.unavailable ∅ "ServiceUnavailable" _ _ _ _).
  - vm_compute. reflexivity.
  - reflexivity.
  - reflexivity.
  - discriminate.
Defined.
